(** * easy_gar.reporting: request, retry, pagination and reshaping

    A shallow embedding of [easy_gar/reporting/__init__.py]: the class
    [ReportingAPI] (methods [_request_with_exponential_backoff], [_get],
    [get_report]) and the value object [OrderBy].  Python values, the
    exceptions the code can meet, and the remote service are modelled
    explicitly; effects (the remote call, [time.sleep], [random.random])
    are threaded through a state monad. *)

From Stdlib Require Import List String Ascii ZArith QArith Bool Lia.
From Stdlib Require Import DecimalString.
Import ListNotations.

#[local] Set Warnings "-register-all".
#[local] Open Scope string_scope.
#[local] Open Scope Z_scope.
#[local] Open Scope list_scope.

(** ** Python values *)

Module Py.

(** The JSON-shaped values that travel in request bodies and responses.
    A [dict] keeps its insertion order and has [str] keys. *)
Inductive value : Type :=
| VNone
| VBool (b : bool)
| VInt (z : Z)
| VFloat (q : Q)
| VStr (s : string)
| VList (l : list value)
| VDict (d : list (string * value)).

(** The arguments to which the source applies [str(...)]: [None], a
    [bool], an [int] or a [str]. *)
Inductive atom : Type :=
| ANone
| ABool (b : bool)
| AInt (z : Z)
| AStr (s : string).

Definition of_atom (a : atom) : value :=
  match a with
  | ANone => VNone
  | ABool b => VBool b
  | AInt z => VInt z
  | AStr s => VStr s
  end.

Record HttpError : Type := mkHttpError {
  resp_reason : string;
  content : string
}.

Inductive exn : Type :=
| TypeError
| ValueError
| KeyError (key : value)
| IndexError
| AttributeError (name : string)
| HttpErrorExn (err : HttpError).

(** Outcome of running a piece of code: a value, a raised exception, or
    the step budget of a [while] loop ran out. *)
Inductive res (A : Type) : Type :=
| Ok (a : A)
| Raise (e : exn)
| OutOfFuel.

Arguments Ok {A} a.
Arguments Raise {A} e.
Arguments OutOfFuel {A}.

Definition res_bind {A B} (r : res A) (k : A -> res B) : res B :=
  match r with
  | Ok a => k a
  | Raise e => Raise e
  | OutOfFuel => OutOfFuel
  end.

(** [bool(v)] *)
Definition truthy (v : value) : bool :=
  match v with
  | VNone => false
  | VBool b => b
  | VInt z => negb (z =? 0)
  | VFloat q => negb (Qeq_bool q 0)
  | VStr s => negb (s =? "")%string
  | VList l => match l with [] => false | _ => true end
  | VDict d => match d with [] => false | _ => true end
  end.

(** [x or y] and [x and y] *)
Definition or_ (x y : value) : value := if truthy x then x else y.
Definition and_ (x y : value) : value := if truthy x then y else x.

(** [str(a)] *)
Definition str (a : atom) : string :=
  match a with
  | ANone => "None"
  | ABool true => "True"
  | ABool false => "False"
  | AInt z => NilZero.string_of_int (Z.to_int z)
  | AStr s => s
  end.

(** [d[k]] on the association list of a dict. *)
Fixpoint dict_get (d : list (string * value)) (k : string) : option value :=
  match d with
  | [] => None
  | (k', v) :: d' => if (k' =? k)%string then Some v else dict_get d' k
  end.

(** [d[k] = v]: replaces the value of an existing key in place, appends a
    new key at the end. *)
Fixpoint dict_set (d : list (string * value)) (k : string) (v : value)
  : list (string * value) :=
  match d with
  | [] => [(k, v)]
  | (k', v') :: d' =>
      if (k' =? k)%string then (k, v) :: d' else (k', v') :: dict_set d' k v
  end.

(** [l[i]] with Python's negative indices. *)
Definition list_index {A} (l : list A) (i : Z) : option A :=
  let n := Z.of_nat (List.length l) in
  let j := if i <? 0 then i + n else i in
  if (0 <=? j) && (j <? n) then nth_error l (Z.to_nat j) else None.

Fixpoint chars (s : string) : list value :=
  match s with
  | EmptyString => []
  | String c s' => VStr (String c EmptyString) :: chars s'
  end.

(** [v[k]] for a [str] key [k]. *)
Definition getitem (v : value) (k : string) : res value :=
  match v with
  | VDict d =>
      match dict_get d k with
      | Some x => Ok x
      | None => Raise (KeyError (VStr k))
      end
  | _ => Raise TypeError
  end.

(** [v[i]] for an [int] index [i]. *)
Definition getitem_int (v : value) (i : Z) : res value :=
  match v with
  | VList l =>
      match list_index l i with
      | Some x => Ok x
      | None => Raise IndexError
      end
  | VStr s =>
      match list_index (chars s) i with
      | Some x => Ok x
      | None => Raise IndexError
      end
  | VDict _ => Raise (KeyError (VInt i))
  | _ => Raise TypeError
  end.

(** The elements [iter(v)] yields. *)
Definition iter (v : value) : res (list value) :=
  match v with
  | VList l => Ok l
  | VStr s => Ok (chars s)
  | VDict d => Ok (map (fun kv => VStr (fst kv)) d)
  | _ => Raise TypeError
  end.

(** [v.keys()] *)
Definition keys (v : value) : res (list string) :=
  match v with
  | VDict d => Ok (map fst d)
  | _ => Raise (AttributeError "keys")
  end.

(** [x + y]; [None] supports no addition. *)
Definition add (x y : value) : res value :=
  match x, y with
  | VInt a, VInt b => Ok (VInt (a + b))
  | VInt a, VFloat b => Ok (VFloat (inject_Z a + b))
  | VFloat a, VInt b => Ok (VFloat (a + inject_Z b))
  | VFloat a, VFloat b => Ok (VFloat (a + b))
  | VStr a, VStr b => Ok (VStr (a ++ b)%string)
  | VList a, VList b => Ok (VList (a ++ b)%list)
  | _, _ => Raise TypeError
  end.

(** Consuming a generator whose items are computed on demand: the items
    up to the first one that raises. *)
Fixpoint consume {A} (g : list (res A)) : res (list A) :=
  match g with
  | [] => Ok []
  | x :: g' =>
      res_bind x (fun a => res_bind (consume g') (fun l => Ok (a :: l)))
  end.

(** [zip] applied to the unpacked [rows]: the columns of [rows], cut to
    the shortest row; no column at all when there is no row. *)
Fixpoint zip_star {A} (rows : list (list A)) : list (list A) :=
  match rows with
  | [] => []
  | r :: rs =>
      match rs with
      | [] => map (fun x => [x]) r
      | _ => map (fun p => fst p :: snd p) (combine r (zip_star rs))
      end
  end.

End Py.

Import Py.

(** ** Effects: the remote service, the clock and the random source *)

Declare Scope py_scope.
Delimit Scope py_scope with py.

Section Effects.

(** Everything outside the process: the state of the remote reporting
    service and of the random number generator. *)
Variable World : Type.

(** What the program has done so far: the bodies handed to
    [batchGet(body=...)] and the durations passed to [time.sleep], both
    oldest first. *)
Record St : Type := mkSt {
  world : World;
  sent : list value;
  slept : list Z
}.

Definition M (A : Type) : Type := St -> res A * St.

Definition ret {A} (a : A) : M A := fun s => (Ok a, s).

Definition raise {A} (e : exn) : M A := fun s => (Raise e, s).

Definition bind {A B} (c : M A) (k : A -> M B) : M B :=
  fun s =>
    match c s with
    | (Ok a, s') => k a s'
    | (Raise e, s') => (Raise e, s')
    | (OutOfFuel, s') => (OutOfFuel, s')
    end.

(** A computation without effects. *)
Definition lift {A} (r : res A) : M A := fun s => (r, s).

(** A computation that leaves the state as it found it. *)
Definition pure_ {A} (c : M A) : Prop := forall s, snd (c s) = s.

End Effects.

Arguments mkSt {World}.
Arguments world {World}.
Arguments sent {World}.
Arguments slept {World}.
Arguments ret {World A}.
Arguments raise {World A}.
Arguments bind {World A B}.
Arguments lift {World A}.
Arguments pure_ {World A}.

Notation "x <- c ;; k" := (bind c (fun x => k))
  (at level 100, c at next level, right associativity) : py_scope.
Notation "' p <- c ;; k" := (bind c (fun p => k))
  (at level 100, p pattern, c at next level, right associativity) : py_scope.

#[local] Open Scope py_scope.

(** ** Value objects *)

(** A metric object of [easy_gar.reporting.metrics]: the code calls it
    ([metric()]) for its wire form and reads [metric.alias]. *)
Record Metric : Type := mkMetric {
  metric_call : value;
  metric_alias : value
}.

(** A dimension object of [easy_gar.reporting.dimensions], used the same
    way. *)
Record Dimension : Type := mkDimension {
  dimension_call : value;
  dimension_alias : value
}.

(** [class OrderBy] *)
Record OrderBy : Type := mkOrderBy {
  field_name : atom;
  order_type : value;
  sort_order : value
}.

Section OrderBy.

(** [easy_gar.constants.order_type.default] and
    [easy_gar.constants.sort_order.default] *)
Variables order_type_default sort_order_default : value.

(** [OrderBy.__init__(self, field_name=None, order_type=None,
    sort_order=None)] *)
Definition OrderBy_init (field_name : atom) (order_type sort_order : value)
  : OrderBy :=
  {| field_name := field_name;
     order_type := or_ order_type order_type_default;
     sort_order := or_ sort_order sort_order_default |}.

(** [OrderBy.__call__(self)] *)
Definition OrderBy_call (self : OrderBy) : value :=
  VDict [ ("fieldName", VStr (str (field_name self)));
          ("orderType", order_type self);
          ("sortOrder", sort_order self) ].

End OrderBy.

(** The table handed to [easy_gar.report.Report]: the arguments of
    [pd.MultiIndex.from_tuples] and the pairs the [zip] object [data]
    yields, one per column. *)
Record MultiIndex : Type := mkMultiIndex {
  tuples : list (list value);
  names : list value
}.

Record Report : Type := mkReport {
  data : list (value * list value);
  index : MultiIndex;
  name : value
}.

(** ** class ReportingAPI *)

(** The attributes of an instance that the methods read: [_view_id] set
    by [__init__], and the class attribute [sampling_level]. *)
Record ReportingAPI : Type := mkReportingAPI {
  _view_id : value;
  sampling_level : value
}.

Section Client.

Variable World : Type.

(** [self._reporting.reports().batchGet(body=b).execute()]: the remote
    service answers with a parsed JSON document or raises. *)
Variable execute : value -> World -> res value * World.

(** [random.random()] *)
Variable random_random : World -> Q * World.

(** [easy_gar.reporting.dimensions.date] *)
Variable date : Dimension.

Variable self : ReportingAPI.

(** What [pd.MultiIndex.from_tuples(tuples, names=names)] raises, if
    anything, when it is given at least one tuple: pandas is not part of
    this repository, and it checks the names against the levels it
    finds in the tuples (a [ValueError] when their numbers differ). *)
Variable from_tuples_raises : list (list value) -> list value -> option exn.

#[local] Abbreviation M := (M World).
#[local] Abbreviation St := (St World).

(** The argument [{"reportRequests": [body]}] of [batchGet(body=...)]. *)
Definition batch (body : value) : value :=
  VDict [("reportRequests", VList [body])].

Definition batchGet_execute (b : value) : M value :=
  fun s =>
    let (r, w) := execute b (world s) in
    (r, {| world := w; sent := sent s ++ [b]; slept := slept s |}).

(** [time.sleep(d)] returns [None]. *)
Definition time_sleep (d : Z) : M value :=
  fun s =>
    (Ok VNone, {| world := world s; sent := sent s; slept := slept s ++ [d] |}).

Definition random_random_m : M value :=
  fun s =>
    let (q, w) := random_random (world s) in
    (Ok (VFloat q), {| world := w; sent := sent s; slept := slept s |}).

Definition transient_reasons : list string :=
  [ "userRateLimitExceeded"; "quotaExceeded"; "internalServerError";
    "backendError" ].

Definition is_transient (reason : string) : bool :=
  existsb (String.eqb reason) transient_reasons.

(** [raise error], where [error] is still [None] if nothing was caught. *)
Definition raise_error {A} (error : option HttpError) : M A :=
  match error with
  | Some err => raise (HttpErrorExn err)
  | None => raise TypeError
  end.

(** The [for n in range(0, 5)] loop of
    [_request_with_exponential_backoff], over the remaining values of
    [n]; falling out of the loop, or [break], reaches [raise error]. *)
Fixpoint backoff_loop (body : value) (ns : list Z) (error : option HttpError)
  : M value :=
  match ns with
  | [] => raise_error error
  | n :: ns' =>
      fun s =>
        match batchGet_execute (batch body) s with
        | (Raise (HttpErrorExn err), s1) =>
            let error := Some err in
            if is_transient (resp_reason err) then
              (_ <- (t <- time_sleep (2 ^ n) ;;
                     r <- random_random_m ;;
                     lift (add t r)) ;;
               backoff_loop body ns' error) s1
            else raise_error error s1
        | other => other
        end
  end.

Definition _request_with_exponential_backoff (body : value) : M value :=
  backoff_loop body [0; 1; 2; 3; 4] None.

(** Lines 94-105 of [_get]: the request body. *)
Definition request_body (sampling_level' start_date end_date metrics
    dimensions : value) (order_by : option (list OrderBy))
    (page_token page_size : atom) : list (string * value) :=
  let request_body :=
    [ ("samplingLevel", or_ sampling_level' (sampling_level self));
      ("viewId", _view_id self);
      ("dateRanges",
        VList [VDict [("startDate", start_date); ("endDate", end_date)]]);
      ("metrics", metrics);
      ("dimensions", dimensions);
      ("pageSize",
        or_ (and_ (of_atom page_size) (VStr (str page_size))) (VStr "10000")) ]
  in
  let request_body :=
    if truthy (of_atom page_token)
    then dict_set request_body "pageToken" (VStr (str page_token))
    else request_body in
  match order_by with
  | Some (o :: os) =>
      dict_set request_body "orderBys" (VList (map OrderBy_call (o :: os)))
  | _ => request_body
  end.

Definition _get (sampling_level' start_date end_date metrics dimensions : value)
    (order_by : option (list OrderBy)) (page_token page_size : atom)
  : M value :=
  let request_body :=
    request_body sampling_level' start_date end_date metrics dimensions
      order_by page_token page_size in
  response <- _request_with_exponential_backoff (VDict request_body) ;;
  reports <- lift (getitem response "reports") ;;
  lift (getitem_int reports 0).

(** *** get_report *)

(** A generator expression over [response["data"]["rows"]]: the
    iterable is evaluated when the expression is, each item only when
    the generator is consumed. *)
Definition generator (A : Type) : Type := list (res A).

(** [tuple(row["metrics"][0]["values"])] *)
Definition row_values (row : value) : res (list value) :=
  res_bind (getitem row "metrics") (fun ms =>
  res_bind (getitem_int ms 0) (fun m =>
  res_bind (getitem m "values") iter)).

(** [tuple(row["dimensions"])] *)
Definition row_dimensions (row : value) : res (list value) :=
  res_bind (getitem row "dimensions") iter.

Definition response_rows (response : value) : res (list value) :=
  res_bind (getitem response "data") (fun d =>
  res_bind (getitem d "rows") iter).

Definition rows_of (response : value) : res (generator (list value)) :=
  res_bind (response_rows response) (fun l => Ok (map row_values l)).

Definition indices_of (response : value) : res (generator (list value)) :=
  res_bind (response_rows response) (fun l => Ok (map row_dimensions l)).

(** What looking up [_batch_get] on [self] gives: the method, called
    with five positional arguments, or nothing when neither the
    instance nor its class has such an attribute. *)
Definition batch_get_method : Type :=
  value -> value -> value -> value -> value -> M value.

Variable self_batch_get : option batch_get_method.

Definition call_batch_get (start_date end_date _metrics _dimensions
    page_token : value) : M value :=
  match self_batch_get with
  | Some f => f start_date end_date _metrics _dimensions page_token
  | None => raise (AttributeError "_batch_get")
  end.

(** The [while "nextPageToken" in response.keys()] loop; [fuel] bounds
    the number of iterations. *)
Fixpoint while_next_page (fuel : nat) (start_date end_date _metrics
    _dimensions : value) (response : value)
    (rows indices : generator (list value))
  : M (generator (list value) * generator (list value)) :=
  ks <- lift (keys response) ;;
  if existsb (String.eqb "nextPageToken") ks then
    match fuel with
    | O => lift OutOfFuel
    | S fuel' =>
        page_token <- lift (getitem response "nextPageToken") ;;
        response <- call_batch_get start_date end_date _metrics _dimensions
                      page_token ;;
        if truthy response then
          more_rows <- lift (rows_of response) ;;
          more_indices <- lift (indices_of response) ;;
          while_next_page fuel' start_date end_date _metrics _dimensions
            response (rows ++ more_rows)%list (indices ++ more_indices)%list
        else
          while_next_page fuel' start_date end_date _metrics _dimensions
            response rows indices
    end
  else ret (rows, indices).

(** [pd.MultiIndex.from_tuples(tuples, names=names)] on a tuple of
    tuples and a tuple of names: the index built, kept as the arguments
    it was built from, or the exception raised.  Without any tuple
    pandas makes one empty level per name. *)
Definition from_tuples (tuples : list (list value)) (names : list value)
  : res MultiIndex :=
  match tuples, names with
  | [], _ :: _ => Ok {| tuples := []; names := names |}
  | _, _ =>
      match from_tuples_raises tuples names with
      | Some e => Raise e
      | None => Ok {| tuples := tuples; names := names |}
      end
  end.

(** [if not dimensions: dimensions = [easy_gar.reporting.dimensions.date]] *)
Definition dimensions_or_date (dimensions : option (list Dimension))
  : list Dimension :=
  match dimensions with
  | Some (d :: ds) => d :: ds
  | _ => [date]
  end.

(** [get_report]; the result [None] is Python's [None], returned when
    the function body ends without a [return]. *)
Definition get_report (fuel : nat) (sampling_level' start_date end_date : value)
    (metrics : option (list Metric)) (dimensions : option (list Dimension))
    (order_by : option (list OrderBy)) (name : value)
  : M (option Report) :=
  let dimensions := dimensions_or_date dimensions in
  metrics <- lift (match metrics with
                   | Some ms => Ok ms
                   | None => Raise TypeError
                   end) ;;
  let _metrics := VList (map metric_call metrics) in
  let _dimensions := VList (map dimension_call dimensions) in
  response <- _get sampling_level' start_date end_date _metrics _dimensions
                order_by ANone ANone ;;
  if truthy response then
    rows <- lift (rows_of response) ;;
    indices <- lift (indices_of response) ;;
    ' (rows, indices) <- while_next_page fuel start_date end_date _metrics
                           _dimensions response rows indices ;;
    let fieldnames := map metric_alias metrics in
    rows <- lift (consume rows) ;;
    let data := combine fieldnames (zip_star rows) in
    index_tuples <- lift (consume indices) ;;
    index <- lift (from_tuples index_tuples (map dimension_alias dimensions)) ;;
    ret (Some {| data := data; index := index; name := name |})
  else ret None.

End Client.

Arguments get_report {World}.
Arguments while_next_page {World}.
Arguments call_batch_get {World}.
Arguments _get {World}.
Arguments _request_with_exponential_backoff {World}.
Arguments backoff_loop {World}.
Arguments batchGet_execute {World}.
Arguments time_sleep {World}.
Arguments random_random_m {World}.
Arguments raise_error {World A}.

(** The class as written defines [__init__],
    [_request_with_exponential_backoff], [_get] and [get_report], and
    [__init__] sets [_view_id] and [_reporting]: looking up [_batch_get]
    on an instance finds nothing. *)
Definition ReportingAPI_batch_get {World : Type}
  : option (batch_get_method World) := None.

(** ** A scripted remote service

    The service answers successive calls with the successive entries of a
    script; the random source is constant. *)

Module Script.

Definition World : Type := list (res value).

Definition execute (b : value) (w : World) : res value * World :=
  match w with
  | [] => (Raise (HttpErrorExn {| resp_reason := "notFound"; content := "" |}), [])
  | r :: w' => (r, w')
  end.

Definition random_random (w : World) : Q * World := (1 # 2, w).

(** The index library of the examples: it takes tuples that have one
    entry per name and refuses the others. *)
Definition from_tuples_raises (tuples : list (list value)) (names : list value)
  : option exn :=
  if forallb (fun t => Nat.eqb (List.length t) (List.length names)) tuples
  then None else Some ValueError.

Definition start (w : World) : St World :=
  {| world := w; sent := []; slept := [] |}.

Definition date : Dimension :=
  {| dimension_call := VDict [("name", VStr "ga:date")];
     dimension_alias := VStr "date" |}.

Definition sessions : Metric :=
  {| metric_call :=
       VDict [("expression", VStr "ga:sessions"); ("alias", VStr "sessions")];
     metric_alias := VStr "sessions" |}.

Definition api : ReportingAPI :=
  {| _view_id := VStr "12345"; sampling_level := VStr "DEFAULT" |}.

(** One row of a report: dimension values and one block of metric
    values. *)
Definition row (dims vals : list string) : value :=
  VDict [ ("dimensions", VList (map VStr dims));
          ("metrics", VList [VDict [("values", VList (map VStr vals))]]) ].

Definition page (rows : list value) (next : option string) : value :=
  let report := [("data", VDict [("rows", VList rows)])] in
  VDict [("reports",
    VList [VDict match next with
                 | Some t => report ++ [("nextPageToken", VStr t)]
                 | None => report
                 end])].

Definition page1 : value :=
  page [ row ["20200101"] ["10"]; row ["20200102"] ["11"];
         row ["20200103"] ["12"] ] (Some "3").

Definition page2 : value :=
  page [ row ["20200104"] ["13"]; row ["20200105"] ["14"] ] None.

Definition quota : HttpError :=
  {| resp_reason := "quotaExceeded"; content := "Quota exceeded" |}.

Definition forbidden : HttpError :=
  {| resp_reason := "forbidden"; content := "No access" |}.

(** A document whose only report is the empty dict. *)
Definition empty_page : value := VDict [("reports", VList [VDict []])].

(** [get_report(metrics=[sessions], dimensions=dimensions)] on a fresh
    client of the class as written, against the script [w]. *)
Definition run (fuel : nat) (dimensions : option (list Dimension)) (w : World)
  : res (option Report) * St World :=
  get_report execute random_random date api from_tuples_raises
    ReportingAPI_batch_get fuel
    VNone (VStr "7daysAgo") (VStr "today") (Some [sessions]) dimensions None
    VNone (start w).

(** The body of the request that [run] sends first. *)
Definition first_body : value :=
  VDict (request_body api VNone (VStr "7daysAgo") (VStr "today")
           (VList [metric_call sessions]) (VList [dimension_call date])
           None ANone ANone).

(** An answer without the key [reports]. *)
Definition no_reports : value := VDict [("kind", VStr "analyticsreporting")].

(** An answer whose list of reports is empty. *)
Definition no_report : value := VDict [("reports", VList [])].

(** A report whose [data] has totals but no [rows]. *)
Definition no_rows_page : value :=
  VDict [("reports",
    VList [VDict [("data", VDict [("totals", VList [])])]])].

(** A report whose list of rows is empty. *)
Definition empty_rows_page : value := page [] None.

(** A report whose second row has no [metrics]. *)
Definition bad_row_page : value :=
  page [ row ["20200104"] ["13"];
         VDict [("dimensions", VList [VStr "20200105"])] ] None.

(** Two dimensions and two metrics. *)
Definition country : Dimension :=
  {| dimension_call := VDict [("name", VStr "ga:country")];
     dimension_alias := VStr "country" |}.

Definition users : Metric :=
  {| metric_call :=
       VDict [("expression", VStr "ga:users"); ("alias", VStr "users")];
     metric_alias := VStr "users" |}.

Definition wide_page : value :=
  page [ row ["20200104"; "FR"] ["13"; "7"];
         row ["20200105"; "DE"] ["14"; "9"] ] None.

(** The body of the request for [sessions] and [users] by [date] and
    [country]. *)
Definition wide_body : value :=
  VDict (request_body api VNone (VStr "7daysAgo") (VStr "today")
           (VList [metric_call sessions; metric_call users])
           (VList [dimension_call date; dimension_call country])
           None ANone ANone).

(** The table made of [wide_page]. *)
Definition wide_report : Report :=
  {| data := [ (VStr "sessions", [VStr "13"; VStr "14"]);
               (VStr "users", [VStr "7"; VStr "9"]) ];
     index := {| tuples := [ [VStr "20200104"; VStr "FR"];
                             [VStr "20200105"; VStr "DE"] ];
                 names := [VStr "date"; VStr "country"] |};
     name := VNone |}.

(** The state after one request with [body], the script being used up. *)
Definition done (body : value) : St World :=
  {| world := []; sent := [batch body]; slept := [] |}.

(** [get_report(metrics=[sessions, users], dimensions=[date, country])]
    against the script [w]. *)
Definition run_wide (w : World) : res (option Report) * St World :=
  get_report execute random_random date api from_tuples_raises
    ReportingAPI_batch_get 0
    VNone (VStr "7daysAgo") (VStr "today") (Some [sessions; users])
    (Some [date; country]) None VNone (start w).

End Script.

(** * Properties *)

(** ** The monad *)

Lemma res_bind_Ok_inv {A B} (r : res A) (k : A -> res B) (b : B) :
  res_bind r k = Ok b -> exists a, r = Ok a /\ k a = Ok b.
Proof.
  destruct r as [a| |]; simpl; intros H; try discriminate.
  exists a; auto.
Qed.

Lemma bind_Ok_inv {W A B} (c : M W A) (k : A -> M W B) s b s' :
  bind c k s = (Ok b, s') ->
  exists a s1, c s = (Ok a, s1) /\ k a s1 = (Ok b, s').
Proof.
  unfold bind. destruct (c s) as [[a| |] s1]; intros H; try discriminate.
  exists a, s1; auto.
Qed.

Lemma lift_Ok_inv {W A} (r : res A) (s s' : St W) a :
  lift r s = (Ok a, s') -> r = Ok a /\ s' = s.
Proof. unfold lift. intros [= -> ->]. auto. Qed.

Lemma consume_length {A} (g : list (res A)) (l : list A) :
  consume g = Ok l -> List.length l = List.length g.
Proof.
  revert l. induction g as [|x g IH]; simpl; intros l H.
  - injection H as <-. reflexivity.
  - destruct x as [a| |]; simpl in H; try discriminate.
    destruct (consume g) as [l'| |]; simpl in H; try discriminate.
    injection H as <-. simpl. f_equal. auto.
Qed.

Lemma zip_star_columns {A} (rows : list (list A)) :
  Forall (fun col => List.length col = List.length rows) (zip_star rows).
Proof.
  induction rows as [|r rs IH]; [constructor|].
  cbn [zip_star]. destruct rs as [|r' rs'].
  - apply Forall_forall. intros col Hin.
    apply in_map_iff in Hin. destruct Hin as (x & <- & _). reflexivity.
  - apply Forall_forall. intros col Hin.
    apply in_map_iff in Hin. destruct Hin as ([x c] & <- & Hin).
    apply in_combine_r in Hin.
    rewrite Forall_forall in IH. simpl. f_equal. exact (IH c Hin).
Qed.

(** [str] of a truthy atom is never the empty string. *)
Lemma str_truthy (a : atom) :
  truthy (of_atom a) = true -> truthy (VStr (str a)) = true.
Proof.
  destruct a as [|[|]|z|s]; simpl; try reflexivity; try discriminate.
  - intros _. destruct z as [|p|p]; simpl; [reflexivity| |reflexivity].
    unfold NilZero.string_of_uint.
    destruct (Pos.to_uint p); reflexivity.
  - auto.
Qed.

Lemma dict_get_set_other (d : list (string * value)) (k k' : string) (v : value) :
  k' <> k -> dict_get (dict_set d k' v) k = dict_get d k.
Proof.
  intros Hk. apply String.eqb_neq in Hk.
  induction d as [|[k0 v0] d IH]; simpl.
  - rewrite Hk. reflexivity.
  - destruct (k0 =? k')%string eqn:E; simpl.
    + apply String.eqb_eq in E. subst k0. rewrite Hk. reflexivity.
    + rewrite IH. reflexivity.
Qed.

Lemma dict_get_set_same (d : list (string * value)) (k : string) (v : value) :
  dict_get (dict_set d k v) k = Some v.
Proof.
  induction d as [|[k0 v0] d IH]; simpl.
  - rewrite String.eqb_refl. reflexivity.
  - destruct (k0 =? k)%string eqn:E; simpl.
    + rewrite String.eqb_refl. reflexivity.
    + rewrite E. exact IH.
Qed.

(** ** OrderBy *)

(** C9: an [OrderBy] built with [order_type] (resp. [sort_order]) omitted
    or [None] holds the configured default order type (resp. sort
    order), and calling any [OrderBy] gives the dict with exactly the
    keys [fieldName], [orderType], [sortOrder], in that order, holding
    [str] of the stored field name and the stored order type and sort
    order. *)
Theorem OrderBy_defaults_and_wire_shape :
  forall (order_type_default sort_order_default : value)
         (f : atom) (ot so : value) (o : OrderBy),
    order_type (OrderBy_init order_type_default sort_order_default f VNone so)
      = order_type_default
    /\ sort_order (OrderBy_init order_type_default sort_order_default f ot VNone)
      = sort_order_default
    /\ field_name (OrderBy_init order_type_default sort_order_default f ot so)
      = f
    /\ OrderBy_call o =
         VDict [ ("fieldName", VStr (str (field_name o)));
                 ("orderType", order_type o);
                 ("sortOrder", sort_order o) ].
Proof. intros. repeat split. Qed.

Example OrderBy_example :
  OrderBy_call
    (OrderBy_init (VStr "VALUE") (VStr "ASCENDING") (AStr "ga:sessions") VNone
       (VStr "DESCENDING"))
  = VDict [ ("fieldName", VStr "ga:sessions"); ("orderType", VStr "VALUE");
            ("sortOrder", VStr "DESCENDING") ].
Proof. reflexivity. Qed.

(** ** The request body *)

Section RequestBody.

Variable self : ReportingAPI.
Variables sl start_date end_date metrics dimensions : value.
Variable order_by : option (list OrderBy).
Variable page_token : atom.

(** Setting [pageToken] and [orderBys] leaves the other keys alone. *)
Lemma request_body_field (page_size : atom) (k : string) :
  k <> "pageToken" -> k <> "orderBys" ->
  dict_get
    (request_body self sl start_date end_date metrics dimensions order_by
       page_token page_size) k
  = dict_get
      [ ("samplingLevel", or_ sl (sampling_level self));
        ("viewId", _view_id self);
        ("dateRanges",
          VList [VDict [("startDate", start_date); ("endDate", end_date)]]);
        ("metrics", metrics);
        ("dimensions", dimensions);
        ("pageSize",
          or_ (and_ (of_atom page_size) (VStr (str page_size)))
            (VStr "10000")) ] k.
Proof.
  intros Ht Ho. unfold request_body.
  destruct (truthy (of_atom page_token)); destruct order_by as [[|o os]|];
    rewrite ?dict_get_set_other by congruence; reflexivity.
Qed.

(** The value stored under [pageSize]. *)
Lemma request_body_pageSize (page_size : atom) :
  dict_get
    (request_body self sl start_date end_date metrics dimensions order_by
       page_token page_size) "pageSize"
  = Some (VStr (if truthy (of_atom page_size) then str page_size else "10000")).
Proof.
  rewrite request_body_field by discriminate. cbn [dict_get String.eqb Ascii.eqb Bool.eqb].
  unfold and_. destruct (truthy (of_atom page_size)) eqn:E.
  - unfold or_. rewrite (str_truthy _ E). reflexivity.
  - unfold or_. rewrite E. reflexivity.
Qed.

End RequestBody.

Example page_size_examples :
  forall self,
    dict_get (request_body self VNone VNone VNone VNone VNone None ANone (AInt 500))
      "pageSize" = Some (VStr "500")
    /\ dict_get (request_body self VNone VNone VNone VNone VNone None ANone (AStr "25"))
      "pageSize" = Some (VStr "25")
    /\ dict_get (request_body self VNone VNone VNone VNone VNone None ANone (AInt 0))
      "pageSize" = Some (VStr "10000").
Proof. intros. repeat split. Qed.

(** ** The retry loop *)

Section Backoff.

Variable World : Type.
Variable execute : value -> World -> res value * World.
Variable random_random : World -> Q * World.

#[local] Abbreviation request :=
  (_request_with_exponential_backoff execute random_random).

(** A successful first attempt is returned at once. *)
Lemma backoff_success (body : value) (s : St World) (r : value) (w : World) :
  execute (batch body) (world s) = (Ok r, w) ->
  request body s
  = (Ok r, {| world := w; sent := sent s ++ [batch body]; slept := slept s |}).
Proof.
  intros H. unfold _request_with_exponential_backoff, backoff_loop,
    batchGet_execute, batch in *. rewrite H. reflexivity.
Qed.

(** A transient error on the first attempt: the code sleeps [2 ** 0]
    seconds, draws a random number, and the sum [None + float] raises
    [TypeError]; the loop is left, nothing is retried. *)
Lemma backoff_transient (body : value) (s : St World) (err : HttpError)
    (w : World) :
  execute (batch body) (world s) = (Raise (HttpErrorExn err), w) ->
  is_transient (resp_reason err) = true ->
  request body s
  = (Raise TypeError,
     {| world := snd (random_random w);
        sent := sent s ++ [batch body];
        slept := slept s ++ [1] |}).
Proof.
  intros H Ht. unfold _request_with_exponential_backoff, backoff_loop,
    batchGet_execute, batch in *. rewrite H, Ht.
  unfold bind, time_sleep, random_random_m, lift. simpl.
  destruct (random_random w) as [q w']. reflexivity.
Qed.

(** Any exception other than [HttpError] passes through the [try]. *)
Lemma backoff_other (body : value) (s : St World) (r : res value) (w : World) :
  execute (batch body) (world s) = (r, w) ->
  (forall err, r <> Raise (HttpErrorExn err)) ->
  request body s
  = (r, {| world := w; sent := sent s ++ [batch body]; slept := slept s |}).
Proof.
  intros H Hr. unfold _request_with_exponential_backoff, backoff_loop,
    batchGet_execute, batch in *. rewrite H.
  destruct r as [a|[| | | | |err]|]; try reflexivity.
  exfalso. exact (Hr err eq_refl).
Qed.

(** At any turn of the loop, an error with another reason goes to
    [break] and is raised. *)
Lemma backoff_loop_break (body : value) (s : St World) (err : HttpError)
    (w : World) (n : Z) (ns : list Z) (error : option HttpError) :
  execute (batch body) (world s) = (Raise (HttpErrorExn err), w) ->
  is_transient (resp_reason err) = false ->
  backoff_loop execute random_random body (n :: ns) error s
  = (Raise (HttpErrorExn err),
     {| world := w; sent := sent s ++ [batch body]; slept := slept s |}).
Proof.
  intros H Ht. unfold backoff_loop, batchGet_execute. rewrite H, Ht.
  reflexivity.
Qed.

(** C3: an error whose reason is not one of the four transient ones
    leaves the loop on its first occurrence, at whichever turn of the
    loop it occurs, and is the exception raised: one request was sent,
    nothing was slept and no random number drawn. *)
Theorem non_transient_error_propagates (body : value) (s : St World)
    (err : HttpError) (w : World) :
  execute (batch body) (world s) = (Raise (HttpErrorExn err), w) ->
  is_transient (resp_reason err) = false ->
  request body s
  = (Raise (HttpErrorExn err),
     {| world := w; sent := sent s ++ [batch body]; slept := slept s |})
  /\ forall (n : Z) (ns : list Z) (error : option HttpError),
       backoff_loop execute random_random body (n :: ns) error s
       = (Raise (HttpErrorExn err),
          {| world := w; sent := sent s ++ [batch body]; slept := slept s |}).
Proof.
  intros H Ht. split.
  - apply backoff_loop_break; assumption.
  - intros n ns error. apply backoff_loop_break; assumption.
Qed.

(** Whatever the service answers, one call sends exactly one request. *)
Lemma request_sends_once (body : value) (s : St World) :
  sent (snd (request body s)) = sent s ++ [batch body].
Proof.
  destruct (execute (batch body) (world s)) as [r w] eqn:H.
  destruct r as [a|e|].
  - rewrite (backoff_success _ _ _ _ H). reflexivity.
  - destruct e as [| | | | |err];
      try (rewrite (backoff_other _ _ _ _ H) by discriminate; reflexivity).
    destruct (is_transient (resp_reason err)) eqn:Ht.
    + rewrite (backoff_transient _ _ _ _ H Ht). reflexivity.
    + unfold _request_with_exponential_backoff.
      rewrite (backoff_loop_break _ _ _ _ _ _ _ H Ht). reflexivity.
  - rewrite (backoff_other _ _ _ _ H) by discriminate. reflexivity.
Qed.

End Backoff.

(** C3 at a concrete input: the service answers [forbidden]. *)
Lemma non_transient_error_propagates_witness :
  _request_with_exponential_backoff Script.execute Script.random_random
    (VStr "body")
    (Script.start [Raise (HttpErrorExn Script.forbidden); Ok Script.page2])
  = (Raise (HttpErrorExn Script.forbidden),
     {| world := [Ok Script.page2];
        sent := [batch (VStr "body")];
        slept := [] |})
  /\ forall (n : Z) (ns : list Z) (error : option HttpError),
       backoff_loop Script.execute Script.random_random (VStr "body")
         (n :: ns) error
         (Script.start [Raise (HttpErrorExn Script.forbidden); Ok Script.page2])
       = (Raise (HttpErrorExn Script.forbidden),
          {| world := [Ok Script.page2];
             sent := [batch (VStr "body")];
             slept := [] |}).
Proof.
  apply (non_transient_error_propagates Script.World Script.execute
           Script.random_random (VStr "body")
           (Script.start [Raise (HttpErrorExn Script.forbidden); Ok Script.page2])
           Script.forbidden [Ok Script.page2]).
  - reflexivity.
  - reflexivity.
Defined.

(** C2, at a service that fails once with [quotaExceeded] and would then
    answer: the code sleeps one second and raises [TypeError]; the
    request is not sent a second time (the answer is still pending), no
    second sleep takes place, and the [HttpError] is not what is
    raised. *)
Theorem transient_error_is_not_retried :
  _request_with_exponential_backoff Script.execute Script.random_random
    (VStr "body")
    (Script.start [Raise (HttpErrorExn Script.quota); Ok Script.page2])
  = (Raise TypeError,
     {| world := [Ok Script.page2];
        sent := [batch (VStr "body")];
        slept := [1] |}).
Proof. reflexivity. Qed.

(** ** State-preserving computations *)

Lemma pure_lift {W A} (r : res A) : pure_ (lift (World := W) r).
Proof. intros s. reflexivity. Qed.

Lemma pure_ret {W A} (a : A) : pure_ (ret (World := W) a).
Proof. intros s. reflexivity. Qed.

Lemma pure_raise {W A} (e : exn) : pure_ (raise (World := W) (A := A) e).
Proof. intros s. reflexivity. Qed.

Lemma snd_bind {W A B} (c : M W A) (k : A -> M W B) (s : St W) :
  (forall a, pure_ (k a)) -> snd (bind c k s) = snd (c s).
Proof.
  intros Hk. unfold bind. destruct (c s) as [[a| |] s1]; simpl; auto.
  apply Hk.
Qed.

Lemma pure_bind {W A B} (c : M W A) (k : A -> M W B) :
  pure_ c -> (forall a, pure_ (k a)) -> pure_ (bind c k).
Proof. intros Hc Hk s. rewrite snd_bind by assumption. apply Hc. Qed.

Create HintDb pure.
#[local] Hint Resolve pure_lift pure_ret pure_raise : pure.

(** ** _get *)

Section Get.

Variable World : Type.
Variable execute : value -> World -> res value * World.
Variable random_random : World -> Q * World.
Variable self : ReportingAPI.

(** Every call of [_get] sends one request, with the body it built. *)
Lemma _get_sends (sl start_date end_date metrics dimensions : value)
    (order_by : option (list OrderBy)) (page_token page_size : atom)
    (s : St World) :
  sent (snd (_get execute random_random self sl start_date end_date metrics
               dimensions order_by page_token page_size s))
  = sent s ++
    [batch (VDict (request_body self sl start_date end_date metrics dimensions
                     order_by page_token page_size))].
Proof.
  unfold _get. rewrite snd_bind.
  - apply request_sends_once.
  - intros response. apply pure_bind; auto with pure.
Qed.

(** C5: with [page_size] left at [None], the request [_get] sends has
    a body whose [pageSize] field is the string ["10000"], whatever the
    other arguments. *)
Theorem default_page_size (sl start_date end_date metrics dimensions : value)
    (order_by : option (list OrderBy)) (page_token : atom) (s : St World) :
  exists body : list (string * value),
    sent (snd (_get execute random_random self sl start_date end_date metrics
                 dimensions order_by page_token ANone s))
    = sent s ++ [batch (VDict body)]
    /\ dict_get body "pageSize" = Some (VStr "10000").
Proof.
  eexists. split; [apply _get_sends|].
  rewrite request_body_pageSize. reflexivity.
Qed.

(** C10: the [pageSize] field of the body [_get] sends is always a
    string: ["10000"] for every falsy [page_size], [str(page_size)] for
    every truthy one; an explicit [0], [False] or empty string gives the
    same body as [None]. *)
Theorem page_size_is_a_string (sl start_date end_date metrics dimensions : value)
    (order_by : option (list OrderBy)) (page_token page_size : atom)
    (s : St World) :
  (exists (body : list (string * value)) (text : string),
     sent (snd (_get execute random_random self sl start_date end_date metrics
                  dimensions order_by page_token page_size s))
     = sent s ++ [batch (VDict body)]
     /\ dict_get body "pageSize" = Some (VStr text)
     /\ text = if truthy (of_atom page_size) then str page_size else "10000")
  /\ request_body self sl start_date end_date metrics dimensions order_by
       page_token (AInt 0)
     = request_body self sl start_date end_date metrics dimensions order_by
         page_token ANone
  /\ request_body self sl start_date end_date metrics dimensions order_by
       page_token (AStr "")
     = request_body self sl start_date end_date metrics dimensions order_by
         page_token ANone
  /\ request_body self sl start_date end_date metrics dimensions order_by
       page_token (ABool false)
     = request_body self sl start_date end_date metrics dimensions order_by
         page_token ANone.
Proof.
  split; [|repeat split].
  eexists. eexists. split; [apply _get_sends|].
  split; [apply request_body_pageSize | reflexivity].
Qed.

(** C7: the request body built by [_get] holds under [dateRanges] a list
    of exactly one range, made of the given start and end dates, for all
    arguments; and that body is the one [_get] sends. *)
Theorem one_date_range (sl start_date end_date metrics dimensions : value)
    (order_by : option (list OrderBy)) (page_token page_size : atom)
    (s : St World) :
  dict_get
    (request_body self sl start_date end_date metrics dimensions order_by
       page_token page_size) "dateRanges"
  = Some (VList [VDict [("startDate", start_date); ("endDate", end_date)]])
  /\ sent (snd (_get execute random_random self sl start_date end_date metrics
                  dimensions order_by page_token page_size s))
     = sent s ++
       [batch (VDict (request_body self sl start_date end_date metrics
                        dimensions order_by page_token page_size))].
Proof.
  split.
  - rewrite request_body_field by discriminate. reflexivity.
  - apply _get_sends.
Qed.

End Get.

(** ** get_report *)

Section GetReport.

Variable World : Type.
Variable execute : value -> World -> res value * World.
Variable random_random : World -> Q * World.
Variable date : Dimension.
Variable self : ReportingAPI.
Variable from_tuples_raises : list (list value) -> list value -> option exn.

Lemma rows_of_Ok_inv (response : value) (g : generator (list value)) :
  rows_of response = Ok g ->
  exists l, response_rows response = Ok l /\ g = map row_values l.
Proof.
  unfold rows_of. intros H. apply res_bind_Ok_inv in H.
  destruct H as (l & Hl & [= <-]). eauto.
Qed.

Lemma indices_of_Ok_inv (response : value) (g : generator (list value)) :
  indices_of response = Ok g ->
  exists l, response_rows response = Ok l /\ g = map row_dimensions l.
Proof.
  unfold indices_of. intros H. apply res_bind_Ok_inv in H.
  destruct H as (l & Hl & [= <-]). eauto.
Qed.

Section AnyBatchGet.

Variable self_batch_get : option (batch_get_method World).

#[local] Abbreviation loop :=
  (while_next_page self_batch_get).
#[local] Abbreviation report :=
  (get_report execute random_random date self from_tuples_raises
     self_batch_get).

(** Loop invariant: the two generators range over the same response
    rows, those of the pages seen so far, in arrival order. *)
Lemma while_next_page_same_rows (start_date end_date _metrics _dimensions : value) :
  forall (fuel : nat) (response : value) (seen : list value) (s s' : St World)
         (rows indices : generator (list value)),
    loop fuel start_date end_date _metrics _dimensions response
      (map row_values seen) (map row_dimensions seen) s
    = (Ok (rows, indices), s') ->
    exists more,
      rows = map row_values (seen ++ more)
      /\ indices = map row_dimensions (seen ++ more).
Proof.
  induction fuel as [|fuel IH]; intros response seen s s' rows indices H;
    cbn [while_next_page] in H;
    apply bind_Ok_inv in H; destruct H as (ks & s1 & _ & H);
    destruct (existsb (String.eqb "nextPageToken") ks).
  - discriminate.
  - injection H as <- <- _. exists []. rewrite app_nil_r. auto.
  - apply bind_Ok_inv in H. destruct H as (page_token & s2 & _ & H).
    apply bind_Ok_inv in H. destruct H as (response' & s3 & _ & H).
    destruct (truthy response').
    + apply bind_Ok_inv in H. destruct H as (more_rows & s4 & Hr & H).
      apply bind_Ok_inv in H. destruct H as (more_indices & s5 & Hi & H).
      apply lift_Ok_inv in Hr. destruct Hr as [Hr _].
      apply lift_Ok_inv in Hi. destruct Hi as [Hi _].
      apply rows_of_Ok_inv in Hr. destruct Hr as (l & Hl & ->).
      apply indices_of_Ok_inv in Hi. destruct Hi as (l' & Hl' & ->).
      assert (l' = l) by congruence. subst l'.
      rewrite <- !map_app in H.
      apply IH in H. destruct H as (more & -> & ->).
      exists (l ++ more). rewrite !app_assoc. auto.
    + apply IH in H. exact H.
  - injection H as <- <- _. exists []. rewrite app_nil_r. auto.
Qed.

(** An index that was built holds the tuples and names it was given. *)
Lemma from_tuples_Ok_inv (entries : list (list value)) (names' : list value)
    (i : MultiIndex) :
  from_tuples from_tuples_raises entries names' = Ok i ->
  i = {| tuples := entries; names := names' |}.
Proof.
  unfold from_tuples. intros H.
  destruct entries as [|t ts]; [destruct names' as [|n ns]|];
    try (injection H as <-; reflexivity);
    destruct (from_tuples_raises _ _); try discriminate;
    injection H as <-; reflexivity.
Qed.

(** What a returned report is made of. *)
Lemma get_report_Some_inv (fuel : nat) (sl start_date end_date : value)
    (metrics : option (list Metric)) (dimensions : option (list Dimension))
    (order_by : option (list OrderBy)) (name' : value) (s s' : St World)
    (r : Report) :
  report fuel sl start_date end_date metrics dimensions order_by name' s
  = (Ok (Some r), s') ->
  exists (ms : list Metric) (response : value) (s1 : St World)
         (first : list value) (rows indices : generator (list value))
         (metric_rows : list (list value)),
    metrics = Some ms
    /\ _get execute random_random self sl start_date end_date
         (VList (map metric_call ms))
         (VList (map dimension_call (dimensions_or_date date dimensions)))
         order_by ANone ANone s = (Ok response, s1)
    /\ truthy response = true
    /\ response_rows response = Ok first
    /\ loop fuel start_date end_date (VList (map metric_call ms))
         (VList (map dimension_call (dimensions_or_date date dimensions)))
         response (map row_values first) (map row_dimensions first) s1
       = (Ok (rows, indices), s')
    /\ consume rows = Ok metric_rows
    /\ consume indices = Ok (tuples (index r))
    /\ data r = combine (map metric_alias ms) (zip_star metric_rows)
    /\ names (index r)
       = map dimension_alias (dimensions_or_date date dimensions)
    /\ name r = name'.
Proof.
  unfold get_report. intros H.
  apply bind_Ok_inv in H. destruct H as (ms & s0 & Hm & H).
  apply lift_Ok_inv in Hm. destruct Hm as [Hm ->].
  destruct metrics as [ms'|]; [|discriminate]. injection Hm as ->.
  apply bind_Ok_inv in H. destruct H as (response & s1 & Hget & H).
  destruct (truthy response) eqn:Ht; [|discriminate].
  apply bind_Ok_inv in H. destruct H as (rows0 & s2 & Hr & H).
  apply lift_Ok_inv in Hr. destruct Hr as [Hr ->].
  apply bind_Ok_inv in H. destruct H as (indices0 & s2 & Hi & H).
  apply lift_Ok_inv in Hi. destruct Hi as [Hi ->].
  apply rows_of_Ok_inv in Hr. destruct Hr as (first & Hfirst & ->).
  apply indices_of_Ok_inv in Hi. destruct Hi as (first' & Hfirst' & ->).
  assert (first' = first) by congruence. subst first'.
  apply bind_Ok_inv in H. destruct H as ([rows indices] & s2 & Hloop & H).
  apply bind_Ok_inv in H. destruct H as (metric_rows & s3 & Hrows & H).
  apply lift_Ok_inv in Hrows. destruct Hrows as [Hrows ->].
  apply bind_Ok_inv in H. destruct H as (index_tuples & s3 & Hidx & H).
  apply lift_Ok_inv in Hidx. destruct Hidx as [Hidx ->].
  apply bind_Ok_inv in H. destruct H as (index' & s3 & Hbuilt & H).
  apply lift_Ok_inv in Hbuilt. destruct Hbuilt as [Hbuilt ->].
  apply from_tuples_Ok_inv in Hbuilt. subst index'.
  unfold ret in H. injection H as <- <-.
  exists ms, response, s1, first, rows, indices, metric_rows.
  repeat split; assumption.
Qed.

(** C4: when the first response is falsy, [get_report] returns [None]
    and raises nothing; no further request is made. *)
Theorem falsy_first_response_returns_None (fuel : nat)
    (sl start_date end_date : value) (ms : list Metric)
    (dimensions : option (list Dimension)) (order_by : option (list OrderBy))
    (name' : value) (s s1 : St World) (response : value) :
  _get execute random_random self sl start_date end_date
    (VList (map metric_call ms))
    (VList (map dimension_call (dimensions_or_date date dimensions)))
    order_by ANone ANone s = (Ok response, s1) ->
  truthy response = false ->
  report fuel sl start_date end_date (Some ms) dimensions order_by name' s
  = (Ok None, s1).
Proof.
  intros Hget Ht. unfold get_report, bind at 1, lift at 1.
  unfold bind at 1. rewrite Hget, Ht. reflexivity.
Qed.

(** C8: in every report [get_report] returns, the index tuples and the
    metric rows are extracted one for one from the same response rows
    (those of all pages, in arrival order): the index has as many
    entries as there are response rows and metric rows, and every column
    of the table has that many entries. *)
Theorem index_length_is_row_count (fuel : nat) (sl start_date end_date : value)
    (metrics : option (list Metric)) (dimensions : option (list Dimension))
    (order_by : option (list OrderBy)) (name' : value) (s s' : St World)
    (r : Report) :
  report fuel sl start_date end_date metrics dimensions order_by name' s
  = (Ok (Some r), s') ->
  exists (response_rows : list value) (metric_rows : list (list value))
         (ms : list Metric),
    consume (map row_values response_rows) = Ok metric_rows
    /\ consume (map row_dimensions response_rows) = Ok (tuples (index r))
    /\ metrics = Some ms
    /\ data r = combine (map metric_alias ms) (zip_star metric_rows)
    /\ List.length (tuples (index r)) = List.length response_rows
    /\ List.length metric_rows = List.length response_rows
    /\ Forall (fun col => List.length (snd col) = List.length (tuples (index r)))
         (data r).
Proof.
  intros H. apply get_report_Some_inv in H.
  destruct H as (ms & response & s1 & first & rows & indices & metric_rows
                 & -> & _ & _ & _ & Hloop & Hrows & Hidx & Hdata & _ & _).
  apply while_next_page_same_rows in Hloop. destruct Hloop as (more & -> & ->).
  pose proof (consume_length _ _ Hrows) as Lr.
  pose proof (consume_length _ _ Hidx) as Li.
  rewrite length_map in Lr, Li.
  exists (first ++ more), metric_rows, ms.
  repeat split; try assumption.
  rewrite Hdata. apply Forall_forall. intros [a col] Hin.
  apply in_combine_r in Hin. simpl.
  pose proof (zip_star_columns metric_rows) as Hc.
  rewrite Forall_forall in Hc. rewrite (Hc col Hin). congruence.
Qed.

End AnyBatchGet.

(** *** The class as written: [self._batch_get] does not resolve *)

#[local] Abbreviation report_as_written :=
  (get_report execute random_random date self from_tuples_raises
     ReportingAPI_batch_get).

Lemma while_next_page_as_written_pure (fuel : nat)
    (start_date end_date _metrics _dimensions response : value)
    (rows indices : generator (list value)) :
  pure_ (while_next_page (World := World) ReportingAPI_batch_get fuel start_date
           end_date _metrics _dimensions response rows indices).
Proof.
  destruct fuel; cbn [while_next_page];
    (apply pure_bind; [auto with pure|]); intros ks;
    destruct (existsb (String.eqb "nextPageToken") ks); auto with pure.
  apply pure_bind; [auto with pure|]. intros page_token s. reflexivity.
Qed.

(** The loop ends normally only when the response has no next-page
    token, and then without having done anything. *)
Lemma while_next_page_as_written_Ok (fuel : nat)
    (start_date end_date _metrics _dimensions response : value)
    (rows indices rows' indices' : generator (list value)) (s s' : St World) :
  while_next_page ReportingAPI_batch_get fuel start_date end_date _metrics
    _dimensions response rows indices s = (Ok (rows', indices'), s') ->
  rows' = rows /\ indices' = indices /\ s' = s.
Proof.
  intros H. destruct fuel; cbn [while_next_page] in H;
    apply bind_Ok_inv in H; destruct H as (ks & s1 & Hk & H);
    apply lift_Ok_inv in Hk; destruct Hk as [_ ->];
    destruct (existsb (String.eqb "nextPageToken") ks);
    try discriminate; try (injection H as <- <- <-; auto).
  apply bind_Ok_inv in H. destruct H as (page_token & s2 & _ & H).
  discriminate.
Qed.

(** With a list of metrics, one call of [get_report] sends exactly one
    request: the one of its first [_get]. *)
Lemma get_report_sends_once (fuel : nat) (sl start_date end_date : value)
    (ms : list Metric) (dimensions : option (list Dimension))
    (order_by : option (list OrderBy)) (name' : value) (s : St World) :
  sent (snd (report_as_written fuel sl start_date end_date (Some ms) dimensions
               order_by name' s))
  = sent s ++
    [batch (VDict (request_body self sl start_date end_date
                     (VList (map metric_call ms))
                     (VList (map dimension_call
                               (dimensions_or_date date dimensions)))
                     order_by ANone ANone))].
Proof.
  unfold get_report, bind at 1, lift at 1.
  rewrite snd_bind; [apply _get_sends|].
  intros response. destruct (truthy response); [|auto with pure].
  apply pure_bind; [auto with pure|]; intros rows0.
  apply pure_bind; [auto with pure|]; intros indices0.
  apply pure_bind; [apply while_next_page_as_written_pure|].
  intros [rows indices].
  apply pure_bind; [auto with pure|]; intros metric_rows.
  apply pure_bind; [auto with pure|]; intros index_tuples.
  apply pure_bind; [auto with pure|]; intros index'.
  auto with pure.
Qed.

(** A first response that carries a next-page token makes [get_report]
    raise [AttributeError]: the second page is never asked for. *)
Lemma paginated_first_response_raises (fuel : nat)
    (sl start_date end_date : value) (ms : list Metric)
    (dimensions : option (list Dimension)) (order_by : option (list OrderBy))
    (name' : value) (s s1 : St World) (d : list (string * value))
    (first : list value) (token : value) :
  _get execute random_random self sl start_date end_date
    (VList (map metric_call ms))
    (VList (map dimension_call (dimensions_or_date date dimensions)))
    order_by ANone ANone s = (Ok (VDict d), s1) ->
  response_rows (VDict d) = Ok first ->
  dict_get d "nextPageToken" = Some token ->
  report_as_written (S fuel) sl start_date end_date (Some ms) dimensions
    order_by name' s
  = (Raise (AttributeError "_batch_get"), s1).
Proof.
  intros Hget Hrows Htok.
  assert (Hd : truthy (VDict d) = true) by (destruct d; [discriminate|reflexivity]).
  assert (Hk : existsb (String.eqb "nextPageToken") (map fst d) = true).
  { clear Hget Hrows Hd. induction d as [|[k v] d IH]; [discriminate|].
    cbn [dict_get map fst existsb] in Htok |- *.
    rewrite (String.eqb_sym "nextPageToken" k).
    destruct (k =? "nextPageToken")%string; [reflexivity|].
    cbn [orb]. auto. }
  unfold get_report, bind at 1, lift at 1.
  unfold bind at 1. rewrite Hget, Hd.
  unfold rows_of, indices_of. rewrite Hrows. cbn [res_bind].
  unfold bind at 1, lift at 1. unfold bind at 1, lift at 1.
  unfold bind at 1. cbn [while_next_page].
  unfold bind at 1, lift at 1. cbn [keys]. rewrite Hk.
  unfold bind at 1, lift at 1. cbn [getitem]. rewrite Htok.
  reflexivity.
Qed.

End GetReport.

(** ** The class as written, on the scripted service *)

(** A response without a next-page token is reshaped into a table. *)
Example single_page_report :
  Script.run 0 (Some [Script.date]) [Ok Script.page2]
  = (Ok (Some {| data := [(VStr "sessions", [VStr "13"; VStr "14"])];
                 index := {| tuples := [[VStr "20200104"]; [VStr "20200105"]];
                             names := [VStr "date"] |};
                 name := VNone |}),
     {| world := []; sent := [batch Script.first_body]; slept := [] |}).
Proof. reflexivity. Qed.

(** C1, at the example of two pages of 3 and 2 rows with
    [metrics=[sessions]] and [dimensions=[date]]: the first response
    carries a next-page token, and the loop's call of [self._batch_get]
    raises [AttributeError]; no table of 5 rows is returned, and the
    second page is never requested (one request sent, the second answer
    still pending). *)
Theorem two_page_example_raises_AttributeError (fuel : nat) :
  get_report Script.execute Script.random_random Script.date Script.api
    Script.from_tuples_raises ReportingAPI_batch_get (S fuel) VNone
    (VStr "7daysAgo") (VStr "today") (Some [Script.sessions])
    (Some [Script.date]) None VNone
    (Script.start [Ok Script.page1; Ok Script.page2])
  = (Raise (AttributeError "_batch_get"),
     {| world := [Ok Script.page2];
        sent := [batch Script.first_body];
        slept := [] |}).
Proof. reflexivity. Qed.

(** C4 at a concrete input: the only report of the answer is [{}]. *)
Lemma falsy_first_response_returns_None_witness :
  Script.run 0 None [Ok Script.empty_page]
  = (Ok None,
     {| world := []; sent := [batch Script.first_body]; slept := [] |}).
Proof.
  apply (falsy_first_response_returns_None Script.World Script.execute
           Script.random_random Script.date Script.api
           Script.from_tuples_raises ReportingAPI_batch_get
           0 VNone (VStr "7daysAgo") (VStr "today") [Script.sessions] None None
           VNone (Script.start [Ok Script.empty_page])
           {| world := []; sent := [batch Script.first_body]; slept := [] |}
           (VDict [])).
  - reflexivity.
  - reflexivity.
Defined.

(** C8 at a concrete input: the report of [single_page_report]. *)
Lemma index_length_is_row_count_witness :
  exists (response_rows : list value) (metric_rows : list (list value))
         (ms : list Metric),
    consume (map row_values response_rows) = Ok metric_rows
    /\ consume (map row_dimensions response_rows)
       = Ok [[VStr "20200104"]; [VStr "20200105"]]
    /\ Some [Script.sessions] = Some ms
    /\ [(VStr "sessions", [VStr "13"; VStr "14"])]
       = combine (map metric_alias ms) (zip_star metric_rows)
    /\ 2%nat = List.length response_rows
    /\ List.length metric_rows = List.length response_rows
    /\ Forall (fun col => List.length (snd col) = 2%nat)
         [(VStr "sessions", [VStr "13"; VStr "14"])].
Proof.
  apply (index_length_is_row_count Script.World Script.execute
           Script.random_random Script.date Script.api
           Script.from_tuples_raises ReportingAPI_batch_get
           0 VNone (VStr "7daysAgo") (VStr "today") (Some [Script.sessions])
           (Some [Script.date]) None VNone
           (Script.start [Ok Script.page2])
           {| world := []; sent := [batch Script.first_body]; slept := [] |}
           {| data := [(VStr "sessions", [VStr "13"; VStr "14"])];
              index := {| tuples := [[VStr "20200104"]; [VStr "20200105"]];
                          names := [VStr "date"] |};
              name := VNone |}).
  reflexivity.
Defined.


(** * Further properties of the code *)

(** ** _request_with_exponential_backoff *)

Section BackoffMore.

Variable World : Type.
Variable execute : value -> World -> res value * World.
Variable random_random : World -> Q * World.

#[local] Abbreviation request' :=
  (_request_with_exponential_backoff execute random_random).
#[local] Abbreviation loop' := (backoff_loop execute random_random).

(** X1: when the service answers the request, that answer is what the
    function returns, at whichever turn of the loop: one request sent,
    nothing slept, no random number drawn. *)
Theorem first_answer_is_returned (body : value) (s : St World) (r : value)
    (w : World) :
  execute (batch body) (world s) = (Ok r, w) ->
  request' body s
  = (Ok r, {| world := w; sent := sent s ++ [batch body]; slept := slept s |})
  /\ forall (n : Z) (ns : list Z) (error : option HttpError),
       loop' body (n :: ns) error s
       = (Ok r,
          {| world := w; sent := sent s ++ [batch body]; slept := slept s |}).
Proof.
  intros H. split; [apply backoff_success; exact H|].
  intros n ns error. unfold backoff_loop, batchGet_execute. rewrite H.
  reflexivity.
Qed.

(** X2: an [HttpError] with one of the four transient reasons, at turn
    [n] of the loop, makes the code sleep [2 ** n] seconds (without the
    jitter), draw one random number and raise [TypeError]; the rest of
    the loop is not run.  In the function itself this happens at turn
    0, so the sleep is of one second. *)
Theorem transient_error_raises_TypeError (body : value) (s : St World)
    (err : HttpError) (w : World) :
  execute (batch body) (world s) = (Raise (HttpErrorExn err), w) ->
  is_transient (resp_reason err) = true ->
  request' body s
  = (Raise TypeError,
     {| world := snd (random_random w);
        sent := sent s ++ [batch body];
        slept := slept s ++ [1] |})
  /\ forall (n : Z) (ns : list Z) (error : option HttpError),
       loop' body (n :: ns) error s
       = (Raise TypeError,
          {| world := snd (random_random w);
             sent := sent s ++ [batch body];
             slept := slept s ++ [2 ^ n] |}).
Proof.
  intros H Ht. split; [eapply backoff_transient; eassumption|].
  intros n ns error. cbn [backoff_loop]. unfold batchGet_execute.
  rewrite H, Ht. unfold bind, time_sleep, random_random_m, lift.
  cbn [world sent slept]. destruct (random_random w) as [q w']. reflexivity.
Qed.

(** X3: whatever the service does, one call sends exactly one request
    and sleeps at most once, for one second: nothing is ever sent a
    second time. *)
Theorem one_request_per_call (body : value) (s : St World) :
  sent (snd (request' body s)) = sent s ++ [batch body]
  /\ (slept (snd (request' body s)) = slept s
      \/ slept (snd (request' body s)) = slept s ++ [1]).
Proof.
  split; [apply request_sends_once|].
  destruct (execute (batch body) (world s)) as [r w] eqn:H.
  destruct r as [a|e|].
  - left. rewrite (backoff_success _ _ _ _ _ _ _ H). reflexivity.
  - destruct e as [| | | | |err];
      try (left; rewrite (backoff_other _ _ _ _ _ _ _ H) by discriminate;
           reflexivity).
    destruct (is_transient (resp_reason err)) eqn:Ht.
    + right. rewrite (backoff_transient _ _ _ _ _ _ _ H Ht). reflexivity.
    + left. unfold _request_with_exponential_backoff.
      rewrite (backoff_loop_break _ _ _ _ _ _ _ _ _ _ H Ht). reflexivity.
  - left. rewrite (backoff_other _ _ _ _ _ _ _ H) by discriminate. reflexivity.
Qed.

(** X4: a value returned by the function is the service's answer to the
    one request sent; a returned value never follows a sleep. *)
Theorem returned_value_is_the_answer (body : value) (s s' : St World)
    (r : value) :
  request' body s = (Ok r, s') ->
  execute (batch body) (world s) = (Ok r, world s')
  /\ sent s' = sent s ++ [batch body]
  /\ slept s' = slept s.
Proof.
  intros Hr.
  destruct (execute (batch body) (world s)) as [r0 w] eqn:H.
  destruct r0 as [a|e|].
  - rewrite (backoff_success _ _ _ _ _ _ _ H) in Hr.
    injection Hr as <- <-. auto.
  - destruct e as [| | | | |err];
      try (rewrite (backoff_other _ _ _ _ _ _ _ H) in Hr by discriminate;
           discriminate).
    destruct (is_transient (resp_reason err)) eqn:Ht.
    + rewrite (backoff_transient _ _ _ _ _ _ _ H Ht) in Hr. discriminate.
    + unfold _request_with_exponential_backoff in Hr.
      rewrite (backoff_loop_break _ _ _ _ _ _ _ _ _ _ H Ht) in Hr.
      discriminate.
  - rewrite (backoff_other _ _ _ _ _ _ _ H) in Hr by discriminate.
    discriminate.
Qed.

(** X5: an exception that is not an [HttpError] is not caught: it leaves
    the function as it is, after the one request, with nothing slept. *)
Theorem other_exception_is_not_caught (body : value) (s : St World) (e : exn)
    (w : World) :
  execute (batch body) (world s) = (Raise e, w) ->
  (forall err, e <> HttpErrorExn err) ->
  request' body s
  = (Raise e, {| world := w; sent := sent s ++ [batch body]; slept := slept s |}).
Proof.
  intros H He. apply backoff_other; [exact H|].
  intros err Heq. injection Heq as ->. exact (He err eq_refl).
Qed.

End BackoffMore.

(** X1 at a concrete input: the service answers at once. *)
Lemma first_answer_is_returned_witness :
  _request_with_exponential_backoff Script.execute Script.random_random
    (VStr "body") (Script.start [Ok Script.page2])
  = (Ok Script.page2,
     {| world := []; sent := [batch (VStr "body")]; slept := [] |})
  /\ forall (n : Z) (ns : list Z) (error : option HttpError),
       backoff_loop Script.execute Script.random_random (VStr "body")
         (n :: ns) error (Script.start [Ok Script.page2])
       = (Ok Script.page2,
          {| world := []; sent := [batch (VStr "body")]; slept := [] |}).
Proof.
  apply (first_answer_is_returned Script.World Script.execute
           Script.random_random (VStr "body") (Script.start [Ok Script.page2])
           Script.page2 []).
  reflexivity.
Defined.

(** X2 at a concrete input: the service fails with [quotaExceeded]. *)
Lemma transient_error_raises_TypeError_witness :
  _request_with_exponential_backoff Script.execute Script.random_random
    (VStr "body")
    (Script.start [Raise (HttpErrorExn Script.quota); Ok Script.page2])
  = (Raise TypeError,
     {| world := [Ok Script.page2];
        sent := [batch (VStr "body")];
        slept := [1] |})
  /\ forall (n : Z) (ns : list Z) (error : option HttpError),
       backoff_loop Script.execute Script.random_random (VStr "body")
         (n :: ns) error
         (Script.start [Raise (HttpErrorExn Script.quota); Ok Script.page2])
       = (Raise TypeError,
          {| world := [Ok Script.page2];
             sent := [batch (VStr "body")];
             slept := [2 ^ n] |}).
Proof.
  apply (transient_error_raises_TypeError Script.World Script.execute
           Script.random_random (VStr "body")
           (Script.start [Raise (HttpErrorExn Script.quota); Ok Script.page2])
           Script.quota [Ok Script.page2]).
  - reflexivity.
  - reflexivity.
Defined.

(** X4 at a concrete input. *)
Lemma returned_value_is_the_answer_witness :
  Script.execute (batch (VStr "body")) [Ok Script.page2] = (Ok Script.page2, [])
  /\ [batch (VStr "body")] = [] ++ [batch (VStr "body")]
  /\ @nil Z = [].
Proof.
  apply (returned_value_is_the_answer Script.World Script.execute
           Script.random_random (VStr "body") (Script.start [Ok Script.page2])
           {| world := []; sent := [batch (VStr "body")]; slept := [] |}
           Script.page2).
  reflexivity.
Defined.

(** X5 at a concrete input: the call raises [TypeError]. *)
Lemma other_exception_is_not_caught_witness :
  _request_with_exponential_backoff Script.execute Script.random_random
    (VStr "body") (Script.start [Raise TypeError; Ok Script.page2])
  = (Raise TypeError,
     {| world := [Ok Script.page2];
        sent := [batch (VStr "body")];
        slept := [] |}).
Proof.
  apply (other_exception_is_not_caught Script.World Script.execute
           Script.random_random (VStr "body")
           (Script.start [Raise TypeError; Ok Script.page2])
           TypeError [Ok Script.page2]).
  - reflexivity.
  - discriminate.
Defined.

(** ** _get *)

Section GetMore.

Variable World : Type.
Variable execute : value -> World -> res value * World.
Variable random_random : World -> Q * World.
Variable self : ReportingAPI.

#[local] Abbreviation get' := (_get execute random_random self).

(** X6: the body [_get] sends has a [pageToken] exactly when
    [page_token] is truthy, and then it is [str(page_token)]. *)
Theorem page_token_field (sl start_date end_date metrics dimensions : value)
    (order_by : option (list OrderBy)) (page_token page_size : atom)
    (s : St World) :
  exists body : list (string * value),
    sent (snd (get' sl start_date end_date metrics dimensions order_by
                 page_token page_size s))
    = sent s ++ [batch (VDict body)]
    /\ dict_get body "pageToken"
       = if truthy (of_atom page_token)
         then Some (VStr (str page_token)) else None.
Proof.
  eexists. split; [apply _get_sends|].
  unfold request_body.
  destruct (truthy (of_atom page_token)); destruct order_by as [[|o os]|];
    rewrite ?dict_get_set_other by discriminate;
    rewrite ?dict_get_set_same; reflexivity.
Qed.

(** X7: the body [_get] sends has an [orderBys] exactly when [order_by]
    is a non-empty list, and then it is the list of the serialized
    [OrderBy] objects, in their order. *)
Theorem order_bys_field (sl start_date end_date metrics dimensions : value)
    (order_by : option (list OrderBy)) (page_token page_size : atom)
    (s : St World) :
  exists body : list (string * value),
    sent (snd (get' sl start_date end_date metrics dimensions order_by
                 page_token page_size s))
    = sent s ++ [batch (VDict body)]
    /\ dict_get body "orderBys"
       = match order_by with
         | Some (o :: os) => Some (VList (map OrderBy_call (o :: os)))
         | _ => None
         end.
Proof.
  eexists. split; [apply _get_sends|].
  unfold request_body.
  destruct (truthy (of_atom page_token)); destruct order_by as [[|o os]|];
    rewrite ?dict_get_set_same; reflexivity.
Qed.

(** X8: the keys of the body [_get] sends are the six fixed ones, then
    [pageToken] if a page token was given, then [orderBys] if an order
    was given, each once. *)
Theorem request_body_keys (sl start_date end_date metrics dimensions : value)
    (order_by : option (list OrderBy)) (page_token page_size : atom)
    (s : St World) :
  exists body : list (string * value),
    sent (snd (get' sl start_date end_date metrics dimensions order_by
                 page_token page_size s))
    = sent s ++ [batch (VDict body)]
    /\ map fst body
       = [ "samplingLevel"; "viewId"; "dateRanges"; "metrics"; "dimensions";
           "pageSize" ]
         ++ (if truthy (of_atom page_token) then ["pageToken"] else [])
         ++ match order_by with
            | Some (o :: os) => ["orderBys"]
            | _ => []
            end
    /\ NoDup (map fst body).
Proof.
  eexists. split; [apply _get_sends|].
  unfold request_body.
  destruct (truthy (of_atom page_token)); destruct order_by as [[|o os]|];
    (split; [reflexivity|]);
    cbn [dict_set String.eqb Ascii.eqb Bool.eqb map fst];
    repeat (constructor;
            [cbn [In]; intuition discriminate|]); constructor.
Qed.

(** X9: in the body [_get] sends, [samplingLevel] is the given sampling
    level, or the instance's when the given one is falsy; [viewId] is
    the instance's view id; [metrics] and [dimensions] are the arguments
    as given. *)
Theorem fixed_fields (sl start_date end_date metrics dimensions : value)
    (order_by : option (list OrderBy)) (page_token page_size : atom)
    (s : St World) :
  exists body : list (string * value),
    sent (snd (get' sl start_date end_date metrics dimensions order_by
                 page_token page_size s))
    = sent s ++ [batch (VDict body)]
    /\ dict_get body "samplingLevel"
       = Some (if truthy sl then sl else sampling_level self)
    /\ dict_get body "viewId" = Some (_view_id self)
    /\ dict_get body "metrics" = Some metrics
    /\ dict_get body "dimensions" = Some dimensions.
Proof.
  eexists. split; [apply _get_sends|].
  repeat split; rewrite request_body_field by discriminate; reflexivity.
Qed.

End GetMore.

Section GetAnswer.

Variable World : Type.
Variable execute : value -> World -> res value * World.
Variable random_random : World -> Q * World.
Variable self : ReportingAPI.
Variables sl start_date end_date metrics dimensions : value.
Variable order_by : option (list OrderBy).
Variables page_token page_size : atom.

#[local] Abbreviation body' :=
  (VDict (request_body self sl start_date end_date metrics dimensions order_by
            page_token page_size)).
#[local] Abbreviation get'' :=
  (_get execute random_random self sl start_date end_date metrics dimensions
     order_by page_token page_size).

(** What [_get] makes of an answer of the service. *)
Lemma _get_answer (s : St World) (a : value) (w : World) :
  execute (batch body') (world s) = (Ok a, w) ->
  get'' s
  = (res_bind (getitem a "reports") (fun reports => getitem_int reports 0),
     {| world := w; sent := sent s ++ [batch body']; slept := slept s |}).
Proof.
  intros H. unfold _get, bind at 1.
  rewrite (backoff_success _ _ _ _ _ _ _ H).
  unfold bind, lift. destruct (getitem a "reports"); reflexivity.
Qed.

(** What [_get] makes of an exception of the retry function. *)
Lemma _get_raises (s s1 : St World) (e : exn) :
  _request_with_exponential_backoff execute random_random body' s
  = (Raise e, s1) ->
  get'' s = (Raise e, s1).
Proof. intros H. unfold _get, bind at 1. rewrite H. reflexivity. Qed.

(** X10: when the answer holds a non-empty list under [reports], [_get]
    returns the first report of that list and ignores the others. *)
Theorem _get_returns_first_report (s : St World) (a : list (string * value))
    (report : value) (rest : list value) (w : World) :
  execute (batch body') (world s) = (Ok (VDict a), w) ->
  dict_get a "reports" = Some (VList (report :: rest)) ->
  get'' s
  = (Ok report,
     {| world := w; sent := sent s ++ [batch body']; slept := slept s |}).
Proof.
  intros H Hr. rewrite (_get_answer _ _ _ H). cbn [getitem res_bind].
  rewrite Hr. reflexivity.
Qed.

(** X11: when the answer is a dict without the key [reports], [_get]
    raises [KeyError] for that key, after the request was sent. *)
Theorem _get_answer_without_reports (s : St World) (a : list (string * value))
    (w : World) :
  execute (batch body') (world s) = (Ok (VDict a), w) ->
  dict_get a "reports" = None ->
  get'' s
  = (Raise (KeyError (VStr "reports")),
     {| world := w; sent := sent s ++ [batch body']; slept := slept s |}).
Proof.
  intros H Hr. rewrite (_get_answer _ _ _ H). cbn [getitem res_bind].
  rewrite Hr. reflexivity.
Qed.

(** X12: when the answer holds an empty list under [reports], [_get]
    raises [IndexError]. *)
Theorem _get_answer_with_no_report (s : St World) (a : list (string * value))
    (w : World) :
  execute (batch body') (world s) = (Ok (VDict a), w) ->
  dict_get a "reports" = Some (VList []) ->
  get'' s
  = (Raise IndexError,
     {| world := w; sent := sent s ++ [batch body']; slept := slept s |}).
Proof.
  intros H Hr. rewrite (_get_answer _ _ _ H). cbn [getitem res_bind].
  rewrite Hr. reflexivity.
Qed.

End GetAnswer.

(** X10 at a concrete input: an answer with two reports. *)
Lemma _get_returns_first_report_witness :
  _get Script.execute Script.random_random Script.api VNone (VStr "7daysAgo")
    (VStr "today") (VList [metric_call Script.sessions])
    (VList [dimension_call Script.date]) None ANone ANone
    (Script.start
       [Ok (VDict [("reports", VList [VDict [("id", VInt 1)];
                                      VDict [("id", VInt 2)]])])])
  = (Ok (VDict [("id", VInt 1)]),
     {| world := []; sent := [] ++ [batch Script.first_body]; slept := [] |}).
Proof.
  apply (_get_returns_first_report Script.World Script.execute
           Script.random_random Script.api VNone (VStr "7daysAgo")
           (VStr "today") (VList [metric_call Script.sessions])
           (VList [dimension_call Script.date]) None ANone ANone
           (Script.start
              [Ok (VDict [("reports", VList [VDict [("id", VInt 1)];
                                             VDict [("id", VInt 2)]])])])
           [("reports", VList [VDict [("id", VInt 1)]; VDict [("id", VInt 2)]])]
           (VDict [("id", VInt 1)]) [VDict [("id", VInt 2)]] []).
  - reflexivity.
  - reflexivity.
Defined.

(** X11 at a concrete input. *)
Lemma _get_answer_without_reports_witness :
  _get Script.execute Script.random_random Script.api VNone (VStr "7daysAgo")
    (VStr "today") (VList [metric_call Script.sessions])
    (VList [dimension_call Script.date]) None ANone ANone
    (Script.start [Ok Script.no_reports])
  = (Raise (KeyError (VStr "reports")),
     {| world := []; sent := [] ++ [batch Script.first_body]; slept := [] |}).
Proof.
  apply (_get_answer_without_reports Script.World Script.execute
           Script.random_random Script.api VNone (VStr "7daysAgo")
           (VStr "today") (VList [metric_call Script.sessions])
           (VList [dimension_call Script.date]) None ANone ANone
           (Script.start [Ok Script.no_reports])
           [("kind", VStr "analyticsreporting")] []).
  - reflexivity.
  - reflexivity.
Defined.

(** X12 at a concrete input. *)
Lemma _get_answer_with_no_report_witness :
  _get Script.execute Script.random_random Script.api VNone (VStr "7daysAgo")
    (VStr "today") (VList [metric_call Script.sessions])
    (VList [dimension_call Script.date]) None ANone ANone
    (Script.start [Ok Script.no_report])
  = (Raise IndexError,
     {| world := []; sent := [] ++ [batch Script.first_body]; slept := [] |}).
Proof.
  apply (_get_answer_with_no_report Script.World Script.execute
           Script.random_random Script.api VNone (VStr "7daysAgo")
           (VStr "today") (VList [metric_call Script.sessions])
           (VList [dimension_call Script.date]) None ANone ANone
           (Script.start [Ok Script.no_report])
           [("reports", VList [])] []).
  - reflexivity.
  - reflexivity.
Defined.

(** ** Lists, generators and columns *)

Lemma dict_get_None_keys (d : list (string * value)) (k : string) :
  dict_get d k = None -> existsb (String.eqb k) (map fst d) = false.
Proof.
  induction d as [|[k' v] d IH]; [reflexivity|].
  cbn [dict_get map fst existsb]. rewrite (String.eqb_sym k k').
  destruct (k' =? k)%string; [discriminate|]. cbn [orb]. exact IH.
Qed.

Lemma dict_get_Some_keys (d : list (string * value)) (k : string) (v : value) :
  dict_get d k = Some v -> existsb (String.eqb k) (map fst d) = true.
Proof.
  induction d as [|[k' v'] d IH]; [discriminate|].
  cbn [dict_get map fst existsb]. rewrite (String.eqb_sym k k').
  destruct (k' =? k)%string; [reflexivity|]. cbn [orb]. exact IH.
Qed.

(** A response that has rows is a non-empty dict. *)
Lemma response_rows_dict (response : value) (l : list value) :
  response_rows response = Ok l ->
  exists d, response = VDict d /\ truthy response = true.
Proof.
  unfold response_rows. intros H. apply res_bind_Ok_inv in H.
  destruct H as (x & Hx & _). destruct response; try discriminate.
  exists d. split; [reflexivity|]. destruct d; [discriminate|reflexivity].
Qed.

Lemma consume_nth {A B} (f : A -> res B) (l : list A) (out : list B) :
  consume (map f l) = Ok out ->
  forall (i : nat) (x : A),
    nth_error l i = Some x ->
    exists y, f x = Ok y /\ nth_error out i = Some y.
Proof.
  revert out. induction l as [|a l IH]; intros out H i x Hi.
  - destruct i; discriminate.
  - cbn [map consume] in H. apply res_bind_Ok_inv in H.
    destruct H as (b & Hb & H). apply res_bind_Ok_inv in H.
    destruct H as (out' & Hout & [= <-]).
    destruct i as [|i]; cbn [nth_error] in Hi |- *.
    + injection Hi as <-. eauto.
    + eapply IH; eassumption.
Qed.

Lemma nth_error_combine_inv {A B} (a : list A) (b : list B) (j : nat)
    (x : A) (y : B) :
  nth_error (combine a b) j = Some (x, y) ->
  nth_error a j = Some x /\ nth_error b j = Some y.
Proof.
  revert b j. induction a as [|a0 a IH]; intros [|b0 b] j H;
    try (destruct j; discriminate).
  destruct j as [|j]; cbn [combine nth_error] in H |- *.
  - injection H as <- <-. auto.
  - apply IH. exact H.
Qed.

(** Column [j] of [zip_star rows] holds, at place [i], value [j] of row
    [i]. *)
Lemma zip_star_nth {A} (rows : list (list A)) :
  forall (j : nat) (col : list A),
    nth_error (zip_star rows) j = Some col ->
    forall (i : nat) (row : list A),
      nth_error rows i = Some row ->
      exists v, nth_error row j = Some v /\ nth_error col i = Some v.
Proof.
  induction rows as [|r rs IH]; intros j col Hc i row Hi.
  - destruct i; discriminate.
  - cbn [zip_star] in Hc. destruct rs as [|r' rs'].
    + rewrite nth_error_map in Hc.
      destruct (nth_error r j) as [x|] eqn:Hx; [|discriminate].
      injection Hc as <-.
      destruct i as [|i]; cbn [nth_error] in Hi.
      * injection Hi as <-. exists x. auto.
      * destruct i; discriminate.
    + rewrite nth_error_map in Hc.
      destruct (nth_error (combine r (zip_star (r' :: rs'))) j)
        as [[x c]|] eqn:Hp; [|discriminate].
      injection Hc as <-. apply nth_error_combine_inv in Hp.
      destruct Hp as [Hx Hcol].
      destruct i as [|i]; cbn [nth_error] in Hi.
      * injection Hi as <-. exists x. auto.
      * cbn [fst snd nth_error]. exact (IH j c Hcol i row Hi).
Qed.

(** There are no more columns than the shortest row has values. *)
Lemma zip_star_length_le {A} (rows : list (list A)) (row : list A) :
  In row rows -> (List.length (zip_star rows) <= List.length row)%nat.
Proof.
  induction rows as [|r rs IH]; [intros []|].
  intros Hin. cbn [zip_star]. destruct rs as [|r' rs'].
  - destruct Hin as [<-|[]]. rewrite length_map. apply Nat.le_refl.
  - rewrite length_map, length_combine.
    destruct Hin as [<-|Hin]; [apply Nat.le_min_l|].
    etransitivity; [apply Nat.le_min_r|]. exact (IH Hin).
Qed.

(** Rows of one length [m] give [m] columns. *)
Lemma zip_star_length {A} (rows : list (list A)) (m : nat) :
  rows <> [] ->
  Forall (fun row => List.length row = m) rows ->
  List.length (zip_star rows) = m.
Proof.
  induction rows as [|r rs IH]; [congruence|].
  intros _ H. inversion H as [|? ? Hr Hrs]; subst.
  cbn [zip_star]. destruct rs as [|r' rs'].
  - apply length_map.
  - rewrite length_map, length_combine, IH by (congruence || assumption).
    apply Nat.min_id.
Qed.

(** ** get_report, whatever [self._batch_get] resolves to *)

Section GetReportMore.

Variable World : Type.
Variable execute : value -> World -> res value * World.
Variable random_random : World -> Q * World.
Variable date : Dimension.
Variable self : ReportingAPI.
Variable from_tuples_raises : list (list value) -> list value -> option exn.
Variable self_batch_get : option (batch_get_method World).

Variable fuel : nat.
Variables sl start_date end_date : value.
Variable ms : list Metric.
Variable dimensions : option (list Dimension).
Variable order_by : option (list OrderBy).
Variable name' : value.

#[local] Abbreviation report' :=
  (get_report execute random_random date self from_tuples_raises
     self_batch_get fuel sl start_date
     end_date).
#[local] Abbreviation first_get :=
  (_get execute random_random self sl start_date end_date
     (VList (map metric_call ms))
     (VList (map dimension_call (dimensions_or_date date dimensions)))
     order_by ANone ANone).
#[local] Abbreviation first_body' :=
  (VDict (request_body self sl start_date end_date
            (VList (map metric_call ms))
            (VList (map dimension_call (dimensions_or_date date dimensions)))
            order_by ANone ANone)).

(** An exception of the first [_get] leaves [get_report] as it is. *)
Lemma get_report_first_get_raises (s s1 : St World) (e : exn) :
  first_get s = (Raise e, s1) ->
  report' (Some ms) dimensions order_by name' s = (Raise e, s1).
Proof.
  intros H. unfold get_report, bind at 1, lift at 1. unfold bind at 1.
  rewrite H. reflexivity.
Qed.

(** A truthy first response whose rows cannot be reached. *)
Lemma get_report_no_rows (s s1 : St World) (response : value) (e : exn) :
  first_get s = (Ok response, s1) ->
  truthy response = true ->
  response_rows response = Raise e ->
  report' (Some ms) dimensions order_by name' s = (Raise e, s1).
Proof.
  intros H Ht Hr. unfold get_report, bind at 1, lift at 1. unfold bind at 1.
  rewrite H, Ht. unfold rows_of. rewrite Hr. reflexivity.
Qed.

(** An index is built from tuples that the library takes. *)
Lemma from_tuples_accepts (entries : list (list value)) (names' : list value) :
  from_tuples_raises entries names' = None ->
  from_tuples from_tuples_raises entries names'
  = Ok {| tuples := entries; names := names' |}.
Proof.
  intros H. unfold from_tuples. rewrite H.
  destruct entries; [destruct names'|]; reflexivity.
Qed.

(** An empty index is built for the names of the dimensions, of which
    there is always one at least. *)
Lemma from_tuples_no_tuple (dims : option (list Dimension)) :
  from_tuples from_tuples_raises []
    (map dimension_alias (dimensions_or_date date dims))
  = Ok {| tuples := [];
          names := map dimension_alias (dimensions_or_date date dims) |}.
Proof. destruct dims as [[|d ds]|]; reflexivity. Qed.

(** A first response without next-page token: the loop is not entered,
    the metric rows are consumed first, then the index entries, and the
    index is built last. *)
Lemma get_report_single_page (s s1 : St World) (d : list (string * value))
    (response_rows' : list value) :
  first_get s = (Ok (VDict d), s1) ->
  dict_get d "nextPageToken" = None ->
  response_rows (VDict d) = Ok response_rows' ->
  report' (Some ms) dimensions order_by name' s
  = (res_bind (consume (map row_values response_rows')) (fun metric_rows =>
     res_bind (consume (map row_dimensions response_rows')) (fun entries =>
     res_bind (from_tuples from_tuples_raises entries
                 (map dimension_alias (dimensions_or_date date dimensions)))
       (fun index' =>
     Ok (Some
           {| data := combine (map metric_alias ms) (zip_star metric_rows);
              index := index';
              name := name' |})))),
     s1).
Proof.
  intros H Htok Hr.
  destruct (response_rows_dict _ _ Hr) as (d' & _ & Ht).
  apply dict_get_None_keys in Htok.
  unfold get_report, bind at 1, lift at 1. unfold bind at 1.
  rewrite H, Ht. unfold rows_of, indices_of. rewrite Hr. cbn [res_bind].
  unfold bind at 1, lift at 1. unfold bind at 1, lift at 1.
  unfold bind at 1.
  assert (Hloop : forall rows indices,
            while_next_page self_batch_get fuel start_date end_date
              (VList (map metric_call ms))
              (VList (map dimension_call (dimensions_or_date date dimensions)))
              (VDict d) rows indices s1
            = (Ok (rows, indices), s1)).
  { intros rows indices. destruct fuel; cbn [while_next_page];
      unfold bind, lift; cbn [keys]; rewrite Htok; reflexivity. }
  rewrite Hloop. unfold bind, lift, ret.
  destruct (consume (map row_values response_rows')); cbn [res_bind];
    try reflexivity.
  destruct (consume (map row_dimensions response_rows')); cbn [res_bind];
    try reflexivity.
  destruct (from_tuples _ _ _); reflexivity.
Qed.

(** X13: called without metrics (the default [None]), [get_report]
    raises [TypeError] before anything is sent, whatever the other
    arguments. *)
Theorem get_report_without_metrics (s : St World) :
  report' None dimensions order_by name' s = (Raise TypeError, s).
Proof. reflexivity. Qed.

(** X14: a first response without next-page token whose rows all have
    their metric values and dimensions, and whose dimension tuples the
    index library takes under the dimension aliases, is reshaped into
    the table: columns named by the metric aliases, in the metrics'
    order, an index of the rows' dimension tuples named by the
    dimension aliases, and the given name.  Only the one request of
    [_get] was made. *)
Theorem single_page_report_is_built (s s1 : St World)
    (d : list (string * value)) (response_rows' : list value)
    (metric_rows entries : list (list value)) :
  first_get s = (Ok (VDict d), s1) ->
  dict_get d "nextPageToken" = None ->
  response_rows (VDict d) = Ok response_rows' ->
  consume (map row_values response_rows') = Ok metric_rows ->
  consume (map row_dimensions response_rows') = Ok entries ->
  from_tuples_raises entries
    (map dimension_alias (dimensions_or_date date dimensions)) = None ->
  report' (Some ms) dimensions order_by name' s
  = (Ok (Some
           {| data := combine (map metric_alias ms) (zip_star metric_rows);
              index :=
                {| tuples := entries;
                   names := map dimension_alias
                              (dimensions_or_date date dimensions) |};
              name := name' |}),
     s1).
Proof.
  intros H Htok Hr Hm Hi Hacc.
  rewrite (get_report_single_page _ _ _ _ H Htok Hr), Hm, Hi.
  cbn [res_bind]. rewrite (from_tuples_accepts _ _ Hacc). reflexivity.
Qed.

(** X15: a first report whose [data] has no key [rows] (a query that
    matched nothing) makes [get_report] raise [KeyError] for [rows]; no
    empty table is returned. *)
Theorem no_rows_key_raises_KeyError (s s1 : St World)
    (d data' : list (string * value)) :
  first_get s = (Ok (VDict d), s1) ->
  dict_get d "data" = Some (VDict data') ->
  dict_get data' "rows" = None ->
  report' (Some ms) dimensions order_by name' s
  = (Raise (KeyError (VStr "rows")), s1).
Proof.
  intros H Hd Hr. apply (get_report_no_rows _ _ _ _ H).
  - destruct d; [discriminate|reflexivity].
  - unfold response_rows. cbn [getitem res_bind]. rewrite Hd.
    cbn [getitem res_bind]. rewrite Hr. reflexivity.
Qed.

(** X16: a first report whose list of rows is empty, without next-page
    token, gives a table without any column and with an empty index,
    however many metrics were asked for. *)
Theorem empty_rows_give_empty_table (s s1 : St World)
    (d : list (string * value)) :
  first_get s = (Ok (VDict d), s1) ->
  dict_get d "nextPageToken" = None ->
  response_rows (VDict d) = Ok [] ->
  report' (Some ms) dimensions order_by name' s
  = (Ok (Some
           {| data := [];
              index :=
                {| tuples := [];
                   names := map dimension_alias
                              (dimensions_or_date date dimensions) |};
              name := name' |}),
     s1).
Proof.
  intros H Htok Hr. rewrite (get_report_single_page _ _ _ _ H Htok Hr).
  cbn [map consume res_bind zip_star].
  rewrite from_tuples_no_tuple, combine_nil. reflexivity.
Qed.

(** X17: a row whose metric values cannot be read (no [metrics], an
    empty [metrics] list, no [values]) makes [get_report] raise that
    row's exception, whatever its dimensions are; the rows are read
    before the index entries. *)
Theorem malformed_row_raises (s s1 : St World) (d : list (string * value))
    (response_rows' : list value) (e : exn) :
  first_get s = (Ok (VDict d), s1) ->
  dict_get d "nextPageToken" = None ->
  response_rows (VDict d) = Ok response_rows' ->
  consume (map row_values response_rows') = Raise e ->
  report' (Some ms) dimensions order_by name' s = (Raise e, s1).
Proof.
  intros H Htok Hr Hm.
  rewrite (get_report_single_page _ _ _ _ H Htok Hr), Hm. reflexivity.
Qed.

(** X18: an [HttpError] of the service whose reason is not transient
    leaves [get_report] unchanged, after the one request. *)
Theorem get_report_propagates_http_error (s : St World) (err : HttpError)
    (w : World) :
  execute (batch first_body') (world s) = (Raise (HttpErrorExn err), w) ->
  is_transient (resp_reason err) = false ->
  report' (Some ms) dimensions order_by name' s
  = (Raise (HttpErrorExn err),
     {| world := w; sent := sent s ++ [batch first_body']; slept := slept s |}).
Proof.
  intros H Ht. apply get_report_first_get_raises. apply _get_raises.
  unfold _request_with_exponential_backoff.
  apply backoff_loop_break; assumption.
Qed.

(** X19: in a returned report, index entry [i] is the dimension tuple
    of response row [i], and the column at place [j] is named by the
    alias of metric [j] and holds at place [i] value [j] of response row
    [i]; the response rows start with those of the first page. *)
Theorem report_cells (s s' : St World) (r : Report) :
  report' (Some ms) dimensions order_by name' s = (Ok (Some r), s') ->
  exists (response : value) (s1 : St World) (first more : list value),
    first_get s = (Ok response, s1)
    /\ response_rows response = Ok first
    /\ List.length (tuples (index r)) = List.length (first ++ more)
    /\ forall (i : nat) (rw : value),
         nth_error (first ++ more) i = Some rw ->
         (exists entry, row_dimensions rw = Ok entry
                        /\ nth_error (tuples (index r)) i = Some entry)
         /\ exists vals, row_values rw = Ok vals
            /\ forall (j : nat) (alias : value) (col : list value),
                 nth_error (data r) j = Some (alias, col) ->
                 (exists m, nth_error ms j = Some m /\ alias = metric_alias m)
                 /\ exists v, nth_error vals j = Some v
                              /\ nth_error col i = Some v.
Proof.
  intros H. apply get_report_Some_inv in H.
  destruct H as (ms' & response & s1 & first & rows & indices & metric_rows
                 & [= <-] & Hget & _ & Hfirst & Hloop & Hrows & Hidx & Hdata
                 & _ & _).
  apply while_next_page_same_rows in Hloop. destruct Hloop as (more & -> & ->).
  exists response, s1, first, more. repeat split; try assumption.
  - rewrite (consume_length _ _ Hidx). apply length_map.
  - destruct (consume_nth _ _ _ Hidx i rw H) as (entry & He & Hn). eauto.
  - destruct (consume_nth _ _ _ Hrows i rw H) as (vals & Hv & Hn).
    exists vals. split; [exact Hv|]. intros j alias col Hc.
    rewrite Hdata in Hc. apply nth_error_combine_inv in Hc.
    destruct Hc as [Ha Hcol]. split.
    + rewrite nth_error_map in Ha.
      destruct (nth_error ms j) as [m|]; [|discriminate].
      injection Ha as <-. eauto.
    + exact (zip_star_nth _ _ _ Hcol _ _ Hn).
Qed.

(** X20: a returned report never has more columns than metrics were
    asked for, nor more than any row of the first response has metric
    values: what lies beyond the shorter of the two is dropped
    silently. *)
Theorem report_column_count (s s' s1 : St World) (r : Report)
    (response : value) (first : list value) :
  report' (Some ms) dimensions order_by name' s = (Ok (Some r), s') ->
  first_get s = (Ok response, s1) ->
  response_rows response = Ok first ->
  (List.length (data r) <= List.length ms)%nat
  /\ forall rw, In rw first ->
       exists vals, row_values rw = Ok vals
                    /\ (List.length (data r) <= List.length vals)%nat.
Proof.
  intros H Hget Hfirst. apply get_report_Some_inv in H.
  destruct H as (ms' & response' & s1' & first' & rows & indices & metric_rows
                 & [= <-] & Hget' & _ & Hfirst' & Hloop & Hrows & _ & Hdata
                 & _ & _).
  rewrite Hget in Hget'. injection Hget' as <- <-.
  rewrite Hfirst in Hfirst'. injection Hfirst' as <-.
  apply while_next_page_same_rows in Hloop. destruct Hloop as (more & -> & ->).
  rewrite Hdata, length_combine, length_map. split; [apply Nat.le_min_l|].
  intros rw Hin.
  assert (Hin' : In rw (first ++ more)) by (apply in_or_app; left; exact Hin).
  apply In_nth_error in Hin'. destruct Hin' as (i & Hi).
  destruct (consume_nth _ _ _ Hrows i rw Hi) as (vals & Hv & Hn).
  exists vals. split; [exact Hv|].
  etransitivity; [apply Nat.le_min_r|].
  apply zip_star_length_le. eapply nth_error_In. exact Hn.
Qed.

End GetReportMore.

(** Rows that all have [m] values at least give [m] columns at least. *)
Lemma zip_star_length_ge {A} (rows : list (list A)) (m : nat) :
  rows <> [] ->
  Forall (fun row => (m <= List.length row)%nat) rows ->
  (m <= List.length (zip_star rows))%nat.
Proof.
  induction rows as [|row rs IH]; [congruence|].
  intros _ Hall. inversion Hall as [|? ? Hrow Hrs]; subst.
  cbn [zip_star]. destruct rs as [|row' rs'].
  - rewrite length_map. exact Hrow.
  - rewrite length_map, length_combine. apply Nat.min_glb; [exact Hrow|].
    apply IH; [discriminate|exact Hrs].
Qed.

Lemma map_fst_combine {A B} (a : list A) (b : list B) :
  (List.length a <= List.length b)%nat -> map fst (combine a b) = a.
Proof.
  revert b. induction a as [|x a IH]; intros [|y b] H; cbn in *;
    try reflexivity; try lia.
  f_equal. apply IH. lia.
Qed.

Section GetReportColumns.

Variable World : Type.
Variable execute : value -> World -> res value * World.
Variable random_random : World -> Q * World.
Variable date : Dimension.
Variable self : ReportingAPI.
Variable from_tuples_raises : list (list value) -> list value -> option exn.
Variable self_batch_get : option (batch_get_method World).

(** *** The class as written *)

#[local] Abbreviation as_written :=
  (get_report execute random_random date self from_tuples_raises
     ReportingAPI_batch_get).

(** A returned report is made of the first response alone. *)
Lemma as_written_Some_inv (fuel : nat) (sl start_date end_date : value)
    (ms : list Metric) (dimensions : option (list Dimension))
    (order_by : option (list OrderBy)) (name' : value) (s s' : St World)
    (r : Report) :
  as_written fuel sl start_date end_date (Some ms) dimensions order_by name' s
  = (Ok (Some r), s') ->
  exists (response : value) (first : list value)
         (metric_rows : list (list value)),
    _get execute random_random self sl start_date end_date
      (VList (map metric_call ms))
      (VList (map dimension_call (dimensions_or_date date dimensions)))
      order_by ANone ANone s = (Ok response, s')
    /\ response_rows response = Ok first
    /\ consume (map row_values first) = Ok metric_rows
    /\ consume (map row_dimensions first) = Ok (tuples (index r))
    /\ data r = combine (map metric_alias ms) (zip_star metric_rows)
    /\ names (index r)
       = map dimension_alias (dimensions_or_date date dimensions).
Proof.
  intros H. apply get_report_Some_inv in H.
  destruct H as (ms' & response & s1 & first & rows & indices & metric_rows
                 & [= <-] & Hget & _ & Hfirst & Hloop & Hrows & Hidx & Hdata
                 & Hnames & _).
  apply while_next_page_as_written_Ok in Hloop.
  destruct Hloop as (-> & -> & ->).
  exists response, first, metric_rows. repeat split; assumption.
Qed.

(** X21: when a report is returned, the first response has at least
    one row, and every row carries at least one value per metric, the
    table has exactly one column per metric, named by the metric
    aliases in the metrics' order. *)
Theorem one_column_per_metric (fuel : nat) (sl start_date end_date : value)
    (ms : list Metric) (dimensions : option (list Dimension))
    (order_by : option (list OrderBy)) (name' : value) (s s' s1 : St World)
    (r : Report) (response : value) (first : list value)
    (metric_rows : list (list value)) :
  as_written fuel sl start_date end_date (Some ms) dimensions order_by name' s
  = (Ok (Some r), s') ->
  _get execute random_random self sl start_date end_date
    (VList (map metric_call ms))
    (VList (map dimension_call (dimensions_or_date date dimensions)))
    order_by ANone ANone s = (Ok response, s1) ->
  response_rows response = Ok first ->
  consume (map row_values first) = Ok metric_rows ->
  first <> [] ->
  Forall (fun vals => (List.length ms <= List.length vals)%nat) metric_rows ->
  map fst (data r) = map metric_alias ms
  /\ List.length (data r) = List.length ms.
Proof.
  intros H Hget Hfirst Hm Hne Hall. apply as_written_Some_inv in H.
  destruct H as (response' & first' & metric_rows' & Hget' & Hfirst' & Hm'
                 & _ & Hdata & _).
  rewrite Hget in Hget'. injection Hget' as <- <-.
  rewrite Hfirst in Hfirst'. injection Hfirst' as <-.
  rewrite Hm in Hm'. injection Hm' as <-.
  assert (Hrows : metric_rows <> []).
  { pose proof (consume_length _ _ Hm) as L. rewrite length_map in L.
    destruct metric_rows; [|discriminate].
    destruct first; [congruence|discriminate]. }
  pose proof (zip_star_length_ge _ _ Hrows Hall) as Hge.
  rewrite Hdata. split.
  - apply map_fst_combine. rewrite length_map. exact Hge.
  - rewrite length_combine, length_map. apply Nat.min_l. exact Hge.
Qed.

(** X22: dimensions given explicitly are used as they are: in a
    returned report the index levels are named by their aliases, in
    their order, and the one request sent carried their wire forms. *)
Theorem explicit_dimensions_are_kept (fuel : nat)
    (sl start_date end_date : value) (ms : list Metric) (d : Dimension)
    (ds : list Dimension) (order_by : option (list OrderBy)) (name' : value)
    (s s' : St World) (r : Report) :
  as_written fuel sl start_date end_date (Some ms) (Some (d :: ds)) order_by
    name' s = (Ok (Some r), s') ->
  names (index r) = map dimension_alias (d :: ds)
  /\ exists body : list (string * value),
       sent s' = sent s ++ [batch (VDict body)]
       /\ dict_get body "dimensions"
          = Some (VList (map dimension_call (d :: ds))).
Proof.
  intros H.
  pose proof (get_report_sends_once World execute random_random date self
                from_tuples_raises fuel
                sl start_date end_date ms (Some (d :: ds)) order_by name' s)
    as Hs.
  rewrite H in Hs. cbn [snd] in Hs.
  apply get_report_Some_inv in H.
  destruct H as (ms' & response & s1 & first & rows & indices & metric_rows
                 & _ & _ & _ & _ & _ & _ & _ & _ & Hn & _).
  split; [exact Hn|].
  eexists. split; [exact Hs|].
  rewrite request_body_field by discriminate. reflexivity.
Qed.

(** X23: the one request [get_report] sends always asks for the
    default page size ["10000"] and never carries a page token;
    it carries the wire forms of the metrics, in their order, and the
    serialized order when one is given. *)
Theorem get_report_request (fuel : nat) (sl start_date end_date : value)
    (ms : list Metric) (dimensions : option (list Dimension))
    (order_by : option (list OrderBy)) (name' : value) (s : St World) :
  exists body : list (string * value),
    sent (snd (as_written fuel sl start_date end_date (Some ms) dimensions
                 order_by name' s))
    = sent s ++ [batch (VDict body)]
    /\ dict_get body "pageSize" = Some (VStr "10000")
    /\ dict_get body "pageToken" = None
    /\ dict_get body "metrics" = Some (VList (map metric_call ms))
    /\ dict_get body "orderBys"
       = match order_by with
         | Some (o :: os) => Some (VList (map OrderBy_call (o :: os)))
         | _ => None
         end.
Proof.
  eexists. split; [apply get_report_sends_once|].
  split; [rewrite request_body_pageSize; reflexivity|].
  split; [|split].
  - unfold request_body. cbn [of_atom truthy].
    destruct order_by as [[|o os]|];
      rewrite ?dict_get_set_other by discriminate; reflexivity.
  - rewrite request_body_field by discriminate. reflexivity.
  - unfold request_body. cbn [of_atom truthy].
    destruct order_by as [[|o os]|]; rewrite ?dict_get_set_same; reflexivity.
Qed.

(** X24: whenever the service answers the first request with a report
    that has rows and a next-page token, [get_report] raises
    [AttributeError] for [_batch_get]: only that one request was sent,
    and no table is returned, whatever the rows hold. *)
Theorem paginated_answer_raises_AttributeError (fuel : nat)
    (sl start_date end_date : value) (ms : list Metric)
    (dimensions : option (list Dimension)) (order_by : option (list OrderBy))
    (name' : value) (s : St World) (w : World)
    (a d : list (string * value)) (rest first : list value) (token : value) :
  execute
    (batch (VDict (request_body self sl start_date end_date
                     (VList (map metric_call ms))
                     (VList (map dimension_call
                               (dimensions_or_date date dimensions)))
                     order_by ANone ANone)))
    (world s) = (Ok (VDict a), w) ->
  dict_get a "reports" = Some (VList (VDict d :: rest)) ->
  response_rows (VDict d) = Ok first ->
  dict_get d "nextPageToken" = Some token ->
  as_written (S fuel) sl start_date end_date (Some ms) dimensions order_by
    name' s
  = (Raise (AttributeError "_batch_get"),
     {| world := w;
        sent := sent s ++
          [batch (VDict (request_body self sl start_date end_date
                           (VList (map metric_call ms))
                           (VList (map dimension_call
                                     (dimensions_or_date date dimensions)))
                           order_by ANone ANone))];
        slept := slept s |}).
Proof.
  intros H Ha Hr Htok.
  apply (paginated_first_response_raises World execute random_random date self
           from_tuples_raises fuel sl start_date end_date ms dimensions order_by name' s _ d
           first token); try assumption.
  rewrite (_get_answer _ _ _ _ _ _ _ _ _ _ _ _ _ _ _ H).
  cbn [getitem res_bind]. rewrite Ha. reflexivity.
Qed.

End GetReportColumns.

(** ** The further properties on the scripted service *)

(** X14 at a concrete input: two metrics by two dimensions. *)
Lemma single_page_report_is_built_witness :
  Script.run_wide [Ok Script.wide_page]
  = (Ok (Some Script.wide_report), Script.done Script.wide_body).
Proof.
  eapply (single_page_report_is_built Script.World Script.execute
            Script.random_random Script.date Script.api
            Script.from_tuples_raises ReportingAPI_batch_get
            0 VNone (VStr "7daysAgo") (VStr "today")
            [Script.sessions; Script.users]
            (Some [Script.date; Script.country]) None VNone
            (Script.start [Ok Script.wide_page]) (Script.done Script.wide_body)
            [("data",
              VDict [("rows",
                VList [ Script.row ["20200104"; "FR"] ["13"; "7"];
                        Script.row ["20200105"; "DE"] ["14"; "9"] ])])]
            [ Script.row ["20200104"; "FR"] ["13"; "7"];
              Script.row ["20200105"; "DE"] ["14"; "9"] ]
            [ [VStr "13"; VStr "7"]; [VStr "14"; VStr "9"] ]
            [ [VStr "20200104"; VStr "FR"]; [VStr "20200105"; VStr "DE"] ]).
  - reflexivity.
  - reflexivity.
  - reflexivity.
  - reflexivity.
  - reflexivity.
  - reflexivity.
Defined.

(** X15 at a concrete input: [data] holds totals only. *)
Lemma no_rows_key_raises_KeyError_witness :
  Script.run 0 None [Ok Script.no_rows_page]
  = (Raise (KeyError (VStr "rows")), Script.done Script.first_body).
Proof.
  apply (no_rows_key_raises_KeyError Script.World Script.execute
           Script.random_random Script.date Script.api
           Script.from_tuples_raises ReportingAPI_batch_get
           0 VNone (VStr "7daysAgo") (VStr "today") [Script.sessions] None None
           VNone (Script.start [Ok Script.no_rows_page])
           (Script.done Script.first_body)
           [("data", VDict [("totals", VList [])])] [("totals", VList [])]).
  - reflexivity.
  - reflexivity.
  - reflexivity.
Defined.

(** X16 at a concrete input: a report with an empty list of rows. *)
Lemma empty_rows_give_empty_table_witness :
  Script.run 0 None [Ok Script.empty_rows_page]
  = (Ok (Some {| data := [];
                 index := {| tuples := []; names := [VStr "date"] |};
                 name := VNone |}),
     Script.done Script.first_body).
Proof.
  apply (empty_rows_give_empty_table Script.World Script.execute
           Script.random_random Script.date Script.api
           Script.from_tuples_raises ReportingAPI_batch_get
           0 VNone (VStr "7daysAgo") (VStr "today") [Script.sessions] None None
           VNone (Script.start [Ok Script.empty_rows_page])
           (Script.done Script.first_body)
           [("data", VDict [("rows", VList [])])]).
  - reflexivity.
  - reflexivity.
  - reflexivity.
Defined.

(** X17 at a concrete input: the second row has no [metrics]. *)
Lemma malformed_row_raises_witness :
  Script.run 0 None [Ok Script.bad_row_page]
  = (Raise (KeyError (VStr "metrics")), Script.done Script.first_body).
Proof.
  apply (malformed_row_raises Script.World Script.execute
           Script.random_random Script.date Script.api
           Script.from_tuples_raises ReportingAPI_batch_get
           0 VNone (VStr "7daysAgo") (VStr "today") [Script.sessions] None None
           VNone (Script.start [Ok Script.bad_row_page])
           (Script.done Script.first_body)
           [("data",
             VDict [("rows",
               VList [ Script.row ["20200104"] ["13"];
                       VDict [("dimensions", VList [VStr "20200105"])] ])])]
           [ Script.row ["20200104"] ["13"];
             VDict [("dimensions", VList [VStr "20200105"])] ]).
  - reflexivity.
  - reflexivity.
  - reflexivity.
  - reflexivity.
Defined.

(** X18 at a concrete input: the service answers [forbidden]. *)
Lemma get_report_propagates_http_error_witness :
  Script.run 0 None [Raise (HttpErrorExn Script.forbidden)]
  = (Raise (HttpErrorExn Script.forbidden), Script.done Script.first_body).
Proof.
  apply (get_report_propagates_http_error Script.World Script.execute
           Script.random_random Script.date Script.api
           Script.from_tuples_raises ReportingAPI_batch_get
           0 VNone (VStr "7daysAgo") (VStr "today") [Script.sessions] None None
           VNone (Script.start [Raise (HttpErrorExn Script.forbidden)])
           Script.forbidden []).
  - reflexivity.
  - reflexivity.
Defined.

(** X24 at a concrete input: the two pages of 3 and 2 rows. *)
Lemma paginated_answer_raises_AttributeError_witness :
  Script.run 1 (Some [Script.date]) [Ok Script.page1; Ok Script.page2]
  = (Raise (AttributeError "_batch_get"),
     {| world := [Ok Script.page2];
        sent := [batch Script.first_body];
        slept := [] |}).
Proof.
  apply (paginated_answer_raises_AttributeError Script.World Script.execute
           Script.random_random Script.date Script.api
           Script.from_tuples_raises 0 VNone
           (VStr "7daysAgo") (VStr "today") [Script.sessions]
           (Some [Script.date]) None VNone
           (Script.start [Ok Script.page1; Ok Script.page2]) [Ok Script.page2]
           [("reports",
             VList [VDict [("data",
                             VDict [("rows",
                               VList [ Script.row ["20200101"] ["10"];
                                       Script.row ["20200102"] ["11"];
                                       Script.row ["20200103"] ["12"] ])]);
                           ("nextPageToken", VStr "3")]])]
           [("data",
             VDict [("rows",
               VList [ Script.row ["20200101"] ["10"];
                       Script.row ["20200102"] ["11"];
                       Script.row ["20200103"] ["12"] ])]);
            ("nextPageToken", VStr "3")]
           []
           [ Script.row ["20200101"] ["10"]; Script.row ["20200102"] ["11"];
             Script.row ["20200103"] ["12"] ]
           (VStr "3")).
  - reflexivity.
  - reflexivity.
  - reflexivity.
  - reflexivity.
Defined.

(** X19 at a concrete input: the table of [wide_page]. *)
Lemma report_cells_witness :
  exists (response : value) (s1 : St Script.World) (first more : list value),
    _get Script.execute Script.random_random Script.api VNone
      (VStr "7daysAgo") (VStr "today")
      (VList (map metric_call [Script.sessions; Script.users]))
      (VList (map dimension_call
                (dimensions_or_date Script.date
                   (Some [Script.date; Script.country]))))
      None ANone ANone (Script.start [Ok Script.wide_page])
    = (Ok response, s1)
    /\ response_rows response = Ok first
    /\ List.length (tuples (index Script.wide_report))
       = List.length (first ++ more)
    /\ forall (i : nat) (rw : value),
         nth_error (first ++ more) i = Some rw ->
         (exists entry, row_dimensions rw = Ok entry
                        /\ nth_error (tuples (index Script.wide_report)) i
                           = Some entry)
         /\ exists vals, row_values rw = Ok vals
            /\ forall (j : nat) (alias : value) (col : list value),
                 nth_error (data Script.wide_report) j = Some (alias, col) ->
                 (exists m, nth_error [Script.sessions; Script.users] j = Some m
                            /\ alias = metric_alias m)
                 /\ exists v, nth_error vals j = Some v
                              /\ nth_error col i = Some v.
Proof.
  apply (report_cells Script.World Script.execute Script.random_random
           Script.date Script.api Script.from_tuples_raises
           ReportingAPI_batch_get 0 VNone
           (VStr "7daysAgo") (VStr "today") [Script.sessions; Script.users]
           (Some [Script.date; Script.country]) None VNone
           (Script.start [Ok Script.wide_page]) (Script.done Script.wide_body)
           Script.wide_report).
  reflexivity.
Defined.

(** X22 at a concrete input: [dimensions=[date, country]]. *)
Lemma explicit_dimensions_are_kept_witness :
  names (index Script.wide_report)
  = map dimension_alias [Script.date; Script.country]
  /\ exists body : list (string * value),
       sent (Script.done Script.wide_body) = [] ++ [batch (VDict body)]
       /\ dict_get body "dimensions"
          = Some (VList (map dimension_call [Script.date; Script.country])).
Proof.
  apply (explicit_dimensions_are_kept Script.World Script.execute
           Script.random_random Script.date Script.api
           Script.from_tuples_raises 0 VNone
           (VStr "7daysAgo") (VStr "today") [Script.sessions; Script.users]
           Script.date [Script.country] None VNone
           (Script.start [Ok Script.wide_page]) (Script.done Script.wide_body)
           Script.wide_report).
  reflexivity.
Defined.

(** X20 at a concrete input: the table of [wide_page]. *)
Lemma report_column_count_witness :
  (List.length (data Script.wide_report)
   <= List.length [Script.sessions; Script.users])%nat
  /\ forall rw,
       In rw [ Script.row ["20200104"; "FR"] ["13"; "7"];
               Script.row ["20200105"; "DE"] ["14"; "9"] ] ->
       exists vals, row_values rw = Ok vals
                    /\ (List.length (data Script.wide_report)
                        <= List.length vals)%nat.
Proof.
  apply (report_column_count Script.World Script.execute Script.random_random
           Script.date Script.api Script.from_tuples_raises
           ReportingAPI_batch_get 0 VNone (VStr "7daysAgo") (VStr "today")
           [Script.sessions; Script.users]
           (Some [Script.date; Script.country]) None VNone
           (Script.start [Ok Script.wide_page]) (Script.done Script.wide_body)
           (Script.done Script.wide_body) Script.wide_report
           (VDict [("data",
                    VDict [("rows",
                      VList [ Script.row ["20200104"; "FR"] ["13"; "7"];
                              Script.row ["20200105"; "DE"] ["14"; "9"] ])])])).
  - reflexivity.
  - reflexivity.
  - reflexivity.
Defined.

(** X21 at a concrete input: the table of [wide_page]. *)
Lemma one_column_per_metric_witness :
  map fst (data Script.wide_report)
  = map metric_alias [Script.sessions; Script.users]
  /\ List.length (data Script.wide_report)
     = List.length [Script.sessions; Script.users].
Proof.
  apply (one_column_per_metric Script.World Script.execute
           Script.random_random Script.date Script.api
           Script.from_tuples_raises 0 VNone (VStr "7daysAgo") (VStr "today")
           [Script.sessions; Script.users]
           (Some [Script.date; Script.country]) None VNone
           (Script.start [Ok Script.wide_page]) (Script.done Script.wide_body)
           (Script.done Script.wide_body) Script.wide_report
           (VDict [("data",
                    VDict [("rows",
                      VList [ Script.row ["20200104"; "FR"] ["13"; "7"];
                              Script.row ["20200105"; "DE"] ["14"; "9"] ])])])
           [ Script.row ["20200104"; "FR"] ["13"; "7"];
             Script.row ["20200105"; "DE"] ["14"; "9"] ]
           [ [VStr "13"; VStr "7"]; [VStr "14"; VStr "9"] ]).
  - reflexivity.
  - reflexivity.
  - reflexivity.
  - reflexivity.
  - discriminate.
  - repeat constructor.
Defined.

(** ** The default dimension *)

Section DefaultDimension.

Variable World : Type.
Variable execute : value -> World -> res value * World.
Variable random_random : World -> Q * World.
Variable date : Dimension.
Variable self : ReportingAPI.
Variable from_tuples_raises : list (list value) -> list value -> option exn.

#[local] Abbreviation as_written' :=
  (get_report execute random_random date self from_tuples_raises
     ReportingAPI_batch_get).

(** C6, amended: for a call with a list of metrics and with
    [dimensions] omitted or empty, the request made carries under
    [dimensions] the list holding only the wire form of the date
    dimension, and the call behaves as with [dimensions=[date]].  A
    table does result when the first response has no next-page token,
    its rows yield their metric values and their dimension values, and
    the index library takes these under the date alias: its index then
    has the single level named by the date dimension's alias, and its
    entries are the dimension values of the response rows, in their
    order.  Every returned table has such an index.  A call with
    [metrics] left at [None] raises [TypeError] before any request. *)
Theorem default_dimension_is_date (fuel : nat) (sl start_date end_date : value)
    (ms : list Metric) (dimensions : option (list Dimension))
    (order_by : option (list OrderBy)) (name' : value) (s : St World) :
  dimensions = None \/ dimensions = Some [] ->
  (exists body : list (string * value),
     sent (snd (as_written' fuel sl start_date end_date (Some ms) dimensions
                  order_by name' s))
     = sent s ++ [batch (VDict body)]
     /\ dict_get body "dimensions" = Some (VList [dimension_call date]))
  /\ as_written' fuel sl start_date end_date (Some ms) dimensions order_by
       name' s
     = as_written' fuel sl start_date end_date (Some ms) (Some [date])
         order_by name' s
  /\ (forall (d : list (string * value)) (s1 : St World) (first : list value)
             (metric_rows entries : list (list value)),
        _get execute random_random self sl start_date end_date
          (VList (map metric_call ms)) (VList [dimension_call date])
          order_by ANone ANone s = (Ok (VDict d), s1) ->
        dict_get d "nextPageToken" = None ->
        response_rows (VDict d) = Ok first ->
        consume (map row_values first) = Ok metric_rows ->
        consume (map row_dimensions first) = Ok entries ->
        from_tuples_raises entries [dimension_alias date] = None ->
        as_written' fuel sl start_date end_date (Some ms) dimensions order_by
          name' s
        = (Ok (Some
                 {| data := combine (map metric_alias ms)
                              (zip_star metric_rows);
                    index := {| tuples := entries;
                                names := [dimension_alias date] |};
                    name := name' |}),
           s1))
  /\ (forall (r : Report) (s' : St World),
        as_written' fuel sl start_date end_date (Some ms) dimensions order_by
          name' s = (Ok (Some r), s') ->
        names (index r) = [dimension_alias date]
        /\ exists (response : value) (first : list value),
             _get execute random_random self sl start_date end_date
               (VList (map metric_call ms)) (VList [dimension_call date])
               order_by ANone ANone s = (Ok response, s')
             /\ response_rows response = Ok first
             /\ consume (map row_dimensions first) = Ok (tuples (index r)))
  /\ as_written' fuel sl start_date end_date None dimensions order_by name' s
     = (Raise TypeError, s).
Proof.
  intros Hd.
  assert (Hdims : dimensions_or_date date dimensions = [date])
    by (destruct Hd as [-> | ->]; reflexivity).
  split; [|split; [|split; [|split]]].
  - eexists. split; [apply get_report_sends_once|].
    rewrite request_body_field by discriminate. rewrite Hdims. reflexivity.
  - unfold get_report. rewrite Hdims. reflexivity.
  - intros d s1 first metric_rows entries Hget Htok Hfirst Hm He Hacc.
    rewrite (get_report_single_page World execute random_random date self
               from_tuples_raises ReportingAPI_batch_get fuel sl start_date
               end_date ms dimensions order_by name' s s1 d first);
      rewrite ?Hdims; try assumption.
    rewrite Hm, He. cbn [res_bind map].
    rewrite (from_tuples_accepts _ _ _ Hacc). reflexivity.
  - intros r s' H. apply as_written_Some_inv in H.
    destruct H as (response & first & metric_rows & Hget & Hfirst & _ & Hidx
                   & _ & Hnames).
    rewrite Hdims in *. split; [exact Hnames|].
    exists response, first. auto.
  - reflexivity.
Qed.

End DefaultDimension.

(** C6, amended, at a concrete input: with [dimensions] omitted and one
    page of two rows, the table is returned and its index is built from
    the two date values under the name [date]; the request carried the
    date dimension alone. *)
Lemma default_dimension_is_date_witness :
  Script.run 0 None [Ok Script.page2]
  = (Ok (Some {| data := [(VStr "sessions", [VStr "13"; VStr "14"])];
                 index := {| tuples := [[VStr "20200104"]; [VStr "20200105"]];
                             names := [VStr "date"] |};
                 name := VNone |}),
     Script.done Script.first_body)
  /\ exists body : list (string * value),
       sent (snd (Script.run 0 None [Ok Script.page2]))
       = [] ++ [batch (VDict body)]
       /\ dict_get body "dimensions"
          = Some (VList [dimension_call Script.date]).
Proof.
  destruct (default_dimension_is_date Script.World Script.execute
              Script.random_random Script.date Script.api
              Script.from_tuples_raises 0 VNone (VStr "7daysAgo")
              (VStr "today") [Script.sessions] None None VNone
              (Script.start [Ok Script.page2]) (or_introl eq_refl))
    as (Hrequest & _ & Hbuilt & _ & _).
  split; [|exact Hrequest].
  apply (Hbuilt
           [("data",
             VDict [("rows",
               VList [ Script.row ["20200104"] ["13"];
                       Script.row ["20200105"] ["14"] ])])]
           (Script.done Script.first_body)
           [ Script.row ["20200104"] ["13"]; Script.row ["20200105"] ["14"] ]
           [ [VStr "13"]; [VStr "14"] ]
           [ [VStr "20200104"]; [VStr "20200105"] ]);
    reflexivity.
Defined.

(** C6 as stated fails for the call that leaves [metrics] at its
    default too: [TypeError] is raised at once, and no request is made,
    with one dimension or otherwise. *)
Lemma default_dimension_without_metrics :
  get_report Script.execute Script.random_random Script.date Script.api
    Script.from_tuples_raises ReportingAPI_batch_get 1 VNone (VStr "7daysAgo")
    (VStr "today") None None None VNone (Script.start [Ok Script.page2])
  = (Raise TypeError, Script.start [Ok Script.page2])
  /\ ~ (exists body : list (string * value),
          sent (snd (get_report Script.execute Script.random_random
                       Script.date Script.api Script.from_tuples_raises
                       ReportingAPI_batch_get 1 VNone (VStr "7daysAgo")
                       (VStr "today") None None None VNone
                       (Script.start [Ok Script.page2])))
          = sent (Script.start [Ok Script.page2]) ++ [batch (VDict body)]
          /\ dict_get body "dimensions"
             = Some (VList [dimension_call Script.date])).
Proof.
  split; [reflexivity|].
  intros (body & H & _). discriminate H.
Qed.
